(** * tax-logic-core: the federal tax computation engine

    A shallow embedding of [src/calculations/calculateTax.js] and
    [src/policy.js], and the properties of the engine stated in the
    specification; then the rate helpers of the optimizers
    ([getMarginalRate], [getPTETGraduatedRate], [calculateEffectiveRate])
    and further properties of the engine.

    Numbers.  A JavaScript number is modelled as a rational [Q]: amounts are
    finite and arithmetic is exact.  Equality of amounts is [==].  The two
    worked examples of the source (60000 of ordinary income, 20000 of gains on
    top of 40000) are also evaluated in IEEE binary64, in [Module Binary64],
    with Rocq's primitive floats.

    Form fields.  A numeric field is what [parseFloat] makes of it: absent,
    unreadable (NaN), or an amount.

    The clock and the time zone.  [calculateAge] reads [new Date()] and the
    local fields of two dates; the date it reads is the argument [today] of
    [calculateTotalTax], and [Form.birthDate] holds the local fields of the
    birth date.  [calculateTotalTaxIn] makes both readings in a host, from
    the form as the caller writes it.

    Objects used as tables.  [table[key]] on an object literal finds the
    literal's own entries and the members every object inherits from
    [Object.prototype]; see [getProperty] and [orFallback]. *)

From Stdlib Require Import QArith Qminmax Qabs Lqa Lia ZArith List String Bool.
From Stdlib Require Import Floats.PrimFloat.
From Stdlib Require Import Sorting.Sorted.
Import ListNotations.

Open Scope string_scope.
Open Scope Z_scope.
Open Scope Q_scope.

(* ------------------------------------------------------------------------- *)
(** ** Numbers and comparisons *)

Definition Qleb (a b : Q) : bool := Qle_bool a b.
Definition Qgtb (a b : Q) : bool := negb (Qle_bool a b).
Definition Qgeb (a b : Q) : bool := Qle_bool b a.

Infix "<=?" := Qleb (at level 70, no associativity) : Q_scope.
Infix ">?" := Qgtb (at level 70, no associativity) : Q_scope.
Infix ">=?" := Qgeb (at level 70, no associativity) : Q_scope.

(** A bracket schedule: [[threshold, rate]] pairs in ascending order. *)
Definition Schedule := list (Q * Q).

(* ------------------------------------------------------------------------- *)
(** ** Section 1-3 of the source: the 2025 tables *)

Definition TAX_BRACKETS_2025 : list (string * Schedule) :=
  [ ("single",
       [ (0, 0.10); (11925, 0.12); (48475, 0.22); (103350, 0.24);
         (197300, 0.32); (250525, 0.35); (626350, 0.37) ]);
    ("married",
       [ (0, 0.10); (23850, 0.12); (96950, 0.22); (206700, 0.24);
         (394600, 0.32); (501050, 0.35); (751600, 0.37) ]);
    ("marriedSeparate",
       [ (0, 0.10); (11925, 0.12); (48475, 0.22); (103350, 0.24);
         (197300, 0.32); (250525, 0.35); (375800, 0.37) ]);
    ("head",
       [ (0, 0.10); (17000, 0.12); (64850, 0.22); (103350, 0.24);
         (197300, 0.32); (250500, 0.35); (626350, 0.37) ]);
    ("widow",
       [ (0, 0.10); (23850, 0.12); (96950, 0.22); (206700, 0.24);
         (394600, 0.32); (501050, 0.35); (751600, 0.37) ]) ].

Definition STANDARD_DEDUCTIONS_2025 : list (string * Q) :=
  [ ("single", 15700); ("married", 31400); ("marriedSeparate", 15700);
    ("head", 23500); ("widow", 31400) ].

Definition CAPITAL_GAINS_BRACKETS_2025 : list (string * Schedule) :=
  [ ("single",          [ (0, 0); (48350, 0.15); (533400, 0.20) ]);
    ("married",         [ (0, 0); (96700, 0.15); (600050, 0.20) ]);
    ("marriedSeparate", [ (0, 0); (48350, 0.15); (300025, 0.20) ]);
    ("head",            [ (0, 0); (64750, 0.15); (566700, 0.20) ]);
    ("widow",           [ (0, 0); (96700, 0.15); (600050, 0.20) ]) ].

(** [TAX_BRACKETS_2025.single] and its siblings: a property read with a
    literal name that the table owns. *)
Definition TAX_BRACKETS_2025_single : Schedule :=
  [ (0, 0.10); (11925, 0.12); (48475, 0.22); (103350, 0.24);
    (197300, 0.32); (250525, 0.35); (626350, 0.37) ].
Definition STANDARD_DEDUCTIONS_2025_single : Q := 15700.
Definition CAPITAL_GAINS_BRACKETS_2025_single : Schedule :=
  [ (0, 0); (48350, 0.15); (533400, 0.20) ].

(* ------------------------------------------------------------------------- *)
(** ** Bracket engine: [calculateBracketTax] *)

(** The [for] loop of [calculateBracketTax].  [nextLimit] is the next
    bracket's threshold, or [Infinity] at the last bracket, where
    [income > Infinity] is false. *)
Fixpoint bracketLoop (income : Q) (brackets : Schedule) (tax : Q) : Q :=
  match brackets with
  | [] => tax
  | (limit, rate) :: rest =>
      match rest with
      | (nextLimit, _) :: _ =>
          if income >? nextLimit
          then bracketLoop income rest (tax + (nextLimit - limit) * rate)
          else tax + (income - limit) * rate
      | [] => tax + (income - limit) * rate
      end
  end.

Definition calculateBracketTax (income : Q) (brackets : Schedule) : Q :=
  if income <=? 0 then 0
  else Qmax 0 (bracketLoop income brackets 0).

(** A valid bracket schedule, as the data model has it: the first threshold
    is 0, thresholds increase strictly, rates do not decrease. *)
Fixpoint ascending (brackets : Schedule) : Prop :=
  match brackets with
  | (limit, rate) :: rest =>
      match rest with
      | (nextLimit, nextRate) :: _ =>
          limit < nextLimit /\ rate <= nextRate /\ ascending rest
      | [] => True
      end
  | [] => True
  end.

Definition validSchedule (brackets : Schedule) : Prop :=
  match brackets with
  | (limit, _) :: _ => limit == 0
  | [] => False
  end /\ ascending brackets.

(** The largest rate of a schedule, and 0 if none is positive. *)
Definition maxRate (brackets : Schedule) : Q :=
  fold_right (fun b m => Qmax (snd b) m) 0 brackets.

(* ------------------------------------------------------------------------- *)
(** ** The bracket engine in IEEE binary64 *)

Module Binary64.

#[local] Set Warnings "-inexact-float".
#[local] Open Scope float_scope.

(** [Math.max] on two numbers: NaN if either is, and +0 above -0. *)
Definition Math_max (x y : float) : float :=
  if is_nan x || is_nan y then nan
  else if x <? y then y
  else if y <? x then x
  else if 1 / x <? 1 / y then y else x.

(** [Math.min] on two numbers. *)
Definition Math_min (x y : float) : float :=
  if is_nan x || is_nan y then nan
  else if x <? y then x
  else if y <? x then y
  else if 1 / x <? 1 / y then x else y.

Definition TAX_BRACKETS_2025_single : list (float * float) :=
  [ (0, 0.10); (11925, 0.12); (48475, 0.22); (103350, 0.24);
    (197300, 0.32); (250525, 0.35); (626350, 0.37) ].

Definition CAPITAL_GAINS_BRACKETS_2025_single : list (float * float) :=
  [ (0, 0); (48350, 0.15); (533400, 0.20) ].

Fixpoint bracketLoop (income : float) (brackets : list (float * float))
    (tax : float) : float :=
  match brackets with
  | [] => tax
  | (limit, rate) :: rest =>
      match rest with
      | (nextLimit, _) :: _ =>
          if nextLimit <? income
          then bracketLoop income rest (tax + (nextLimit - limit) * rate)
          else tax + (income - limit) * rate
      | [] =>
          if infinity <? income
          then tax + (infinity - limit) * rate
          else tax + (income - limit) * rate
      end
  end.

Definition calculateBracketTax (income : float)
    (brackets : list (float * float)) : float :=
  if income <=? 0 then 0
  else Math_max 0 (bracketLoop income brackets 0).

(** The loop of [calculateCapitalGainsTax], from the highest bracket down:
    [brackets] is given in reverse. *)
Fixpoint gainsLoop (taxableIncome totalIncome : float)
    (brackets : list (float * float)) (tax remainingGains : float) : float :=
  match brackets with
  | [] => tax
  | (threshold, rate) :: rest =>
      if 0 <? remainingGains then
        if threshold <? totalIncome then
          let gainsTaxedAtThisRate :=
            Math_min remainingGains
                     (totalIncome - Math_max taxableIncome threshold) in
          gainsLoop taxableIncome totalIncome rest
                    (tax + gainsTaxedAtThisRate * rate)
                    (remainingGains - gainsTaxedAtThisRate)
        else gainsLoop taxableIncome totalIncome rest tax remainingGains
      else tax
  end.

(** [calculateCapitalGainsTax] at filing status ['single']. *)
Definition calculateCapitalGainsTax_single (taxableIncome capitalGains : float)
    : float :=
  if capitalGains <=? 0 then 0
  else
    let brackets := CAPITAL_GAINS_BRACKETS_2025_single in
    let totalIncome := taxableIncome + capitalGains in
    Math_max 0 (gainsLoop taxableIncome totalIncome (rev brackets)
                          0 capitalGains).

End Binary64.


(* ------------------------------------------------------------------------- *)
(** ** Object literals read with a computed key *)

(** What [table[key]] finds: an entry of the literal itself, a member
    inherited from [Object.prototype], or nothing ([undefined]). *)
Inductive Property (A : Type) : Type :=
  | Own (a : A)
  | Inherited
  | Absent.
Arguments Own {A} a.
Arguments Inherited {A}.
Arguments Absent {A}.

(** The names every object literal inherits. *)
Definition Object_prototype : list string :=
  [ "constructor"; "__defineGetter__"; "__defineSetter__"; "hasOwnProperty";
    "__lookupGetter__"; "__lookupSetter__"; "isPrototypeOf";
    "propertyIsEnumerable"; "toString"; "valueOf"; "__proto__";
    "toLocaleString" ].

Definition inherited (key : string) : bool :=
  existsb (String.eqb key) Object_prototype.

Fixpoint ownProperty {A : Type} (table : list (string * A)) (key : string)
    : option A :=
  match table with
  | [] => None
  | (name, a) :: rest =>
      if String.eqb key name then Some a else ownProperty rest key
  end.

Definition getProperty {A : Type} (table : list (string * A)) (key : string)
    : Property A :=
  match ownProperty table key with
  | Some a => Own a
  | None => if inherited key then Inherited else Absent
  end.

(** [table[key] || fallback].  The tables' own entries are truthy (arrays,
    non-zero numbers) and are kept; [undefined] gives the fallback.  An
    inherited member (a function, or [Object.prototype] itself) is truthy
    too, so the source keeps it and computes with it: arithmetic on it gives
    NaN, and reading it as a bracket array throws a TypeError or reads no
    bracket at all.  None of that is a tax computation; the model gives it
    no value, [None]. *)
Definition orFallback {A : Type} (p : Property A) (fallback : A) : option A :=
  match p with
  | Own a => Some a
  | Absent => Some fallback
  | Inherited => None
  end.

Notation "'let*' x ':=' e 'in' k" :=
  (match e with Some x => k | None => None end)
  (at level 10, x name, e at level 100, k at level 200, only parsing).

(** The filing statuses of the data model, and the key each has in the
    tables. *)
Inductive FilingStatus : Type :=
  | single | married | marriedSeparate | head | widow.

Definition key (status : FilingStatus) : string :=
  match status with
  | single => "single"
  | married => "married"
  | marriedSeparate => "marriedSeparate"
  | head => "head"
  | widow => "widow"
  end.

(* ------------------------------------------------------------------------- *)
(** ** Capital gains stacker: [calculateCapitalGainsTax] *)

(** The loop of [calculateCapitalGainsTax]: [i] runs from the last bracket
    down while [remainingGains > 0], so [brackets] is given in reverse. *)
Fixpoint gainsLoop (taxableIncome totalIncome : Q) (brackets : Schedule)
    (tax remainingGains : Q) : Q :=
  match brackets with
  | [] => tax
  | (threshold, rate) :: rest =>
      if remainingGains >? 0 then
        if totalIncome >? threshold then
          let gainsTaxedAtThisRate :=
            Qmin remainingGains (totalIncome - Qmax taxableIncome threshold) in
          gainsLoop taxableIncome totalIncome rest
                    (tax + gainsTaxedAtThisRate * rate)
                    (remainingGains - gainsTaxedAtThisRate)
        else gainsLoop taxableIncome totalIncome rest tax remainingGains
      else tax
  end.

Definition calculateCapitalGainsTax (taxableIncome capitalGains : Q)
    (filingStatus : string) : option Q :=
  if capitalGains <=? 0 then Some 0
  else
    let* brackets :=
      orFallback (getProperty CAPITAL_GAINS_BRACKETS_2025 filingStatus)
                 CAPITAL_GAINS_BRACKETS_2025_single in
    let totalIncome := taxableIncome + capitalGains in
    Some (Qmax 0 (gainsLoop taxableIncome totalIncome (rev brackets)
                            0 capitalGains)).

(* ------------------------------------------------------------------------- *)
(** ** Self-employment tax: [calculateSelfEmploymentTax] *)

Module SE.
Record t : Type := { tax : Q; deduction : Q }.
End SE.

(** [wages] is a number at both call sites, and [wages || 0] is [wages]. *)
Definition calculateSelfEmploymentTax (netSelfEmploymentIncome wages : Q)
    (filingStatus : string) : option SE.t :=
  if netSelfEmploymentIncome <=? 0
  then Some {| SE.tax := 0; SE.deduction := 0 |}
  else
    let taxableBase := netSelfEmploymentIncome * 0.9235 in
    let ssWageBase := 176100 in
    let remainingSSBase := Qmax 0 (ssWageBase - Qmin ssWageBase wages) in
    let ssTaxableSE := Qmin taxableBase remainingSSBase in
    let ssTax := ssTaxableSE * 0.124 in
    let medicareTax := taxableBase * 0.029 in
    let thresholds :=
      [ ("single", 200000); ("head", 200000); ("married", 250000);
        ("widow", 250000); ("marriedSeparate", 125000) ] in
    let* threshold := orFallback (getProperty thresholds filingStatus) 200000 in
    let addlBase := Qmax 0 (taxableBase - Qmax 0 (threshold - wages)) in
    let additionalMedicare := addlBase * 0.009 in
    let totalTax := ssTax + medicareTax + additionalMedicare in
    let deduction := totalTax * 0.5 in
    Some {| SE.tax := totalTax; SE.deduction := deduction |}.

(* ------------------------------------------------------------------------- *)
(** ** Net investment income tax: [calculateNIIT] *)

Definition calculateNIIT (agi netInvestmentIncome : Q) (filingStatus : string)
    : option Q :=
  let thresholds :=
    [ ("single", 200000); ("married", 250000); ("marriedSeparate", 125000);
      ("head", 200000); ("widow", 250000) ] in
  let* threshold := orFallback (getProperty thresholds filingStatus) 200000 in
  let excessAGI := Qmax 0 (agi - threshold) in
  let taxableNII := Qmin excessAGI netInvestmentIncome in
  Some (taxableNII * 0.038).

(** The NIIT threshold of each filing status, as the documentation of
    [calculateNIIT] lists them. *)
Definition NIIT_threshold (status : FilingStatus) : Q :=
  match status with
  | single | head => 200000
  | married | widow => 250000
  | marriedSeparate => 125000
  end.

(* ------------------------------------------------------------------------- *)
(** ** The tax form *)

(** A numeric field of the form, as [parseFloat] sees it: not there, there
    but not readable as a number, or a number (or text that reads as one). *)
Inductive Field : Type :=
  | Missing
  | Unreadable
  | Amount (q : Q).

(** An object holding numeric fields. *)
Definition Object := string -> Field.

(** [parseFloat(v)]; [None] is NaN. *)
Definition parseFloat (v : Field) : option Q :=
  match v with
  | Amount q => Some q
  | Missing | Unreadable => None
  end.

(** [v !== undefined] *)
Definition defined (v : Field) : bool :=
  match v with
  | Missing => false
  | Unreadable | Amount _ => true
  end.

(** Truthiness of a number: NaN and 0 are falsy. *)
Definition truthy (x : option Q) : bool :=
  match x with
  | Some q => negb (Qeq_bool q 0)
  | None => false
  end.

(** [x || y] on two numbers that may be NaN. *)
Definition orNumber (x y : option Q) : option Q :=
  if truthy x then x else y.

(** [x || d] where [d] is a number. *)
Definition orDefault (x : option Q) (d : Q) : Q :=
  match orNumber x (Some d) with
  | Some q => q
  | None => d
  end.

Declare Scope js_scope.
Delimit Scope js_scope with js.
Notation "x || d" := (orDefault x d) (at level 50, left associativity)
  : js_scope.

(** A calendar date, by the getters the source reads. *)
Record Date : Type := { getFullYear : Z; getMonth : Z; getDate : Z }.

(** [form.birthDate] as [calculateAge] reads it: falsy, not a date
    ([new Date] of it is invalid), or a date, by the local fields of
    [new Date(form.birthDate)] in the time zone of the process. *)
Inductive BirthDate : Type :=
  | NoBirthDate
  | InvalidDate
  | Born (birth : Date).

Module Dependent.
Record t : Type := { qualifyingChild : bool; childTaxCredit : bool }.
End Dependent.

Module Form.
Record t : Type := {
  filingStatus : option string;
  deductionType : option string;
  useObbba2025 : option bool;
  birthDate : BirthDate;
  (** the flat numeric fields, by name *)
  fields : Object;
  hasScheduleC : bool;
  scheduleC : option Object;
  hasScheduleE : bool;
  scheduleE : option Object;
  hasScheduleD : bool;
  scheduleD : option Object;
  scheduleK1 : option Object;
  dependents : list Dependent.t
}.
End Form.

(** [form.name] for a numeric field. *)
Definition field (form : Form.t) (name : string) : Field :=
  Form.fields form name.

(** [object?.name] *)
Definition optionalField (object : option Object) (name : string) : Field :=
  match object with
  | Some o => o name
  | None => Missing
  end.

(** The form with no field set, and field updates. *)
Definition emptyObject : Object := fun _ => Missing.

Definition setField (name : string) (v : Field) (o : Object) : Object :=
  fun k => if String.eqb k name then v else o k.

Definition emptyForm : Form.t :=
  {| Form.filingStatus := None;
     Form.deductionType := None;
     Form.useObbba2025 := None;
     Form.birthDate := NoBirthDate;
     Form.fields := emptyObject;
     Form.hasScheduleC := false;
     Form.scheduleC := None;
     Form.hasScheduleE := false;
     Form.scheduleE := None;
     Form.hasScheduleD := false;
     Form.scheduleD := None;
     Form.scheduleK1 := None;
     Form.dependents := [] |}.

(** [{ ...form, filingStatus: s }] and the like. *)
Definition withFilingStatus (s : option string) (form : Form.t) : Form.t :=
  {| Form.filingStatus := s;
     Form.deductionType := Form.deductionType form;
     Form.useObbba2025 := Form.useObbba2025 form;
     Form.birthDate := Form.birthDate form;
     Form.fields := Form.fields form;
     Form.hasScheduleC := Form.hasScheduleC form;
     Form.scheduleC := Form.scheduleC form;
     Form.hasScheduleE := Form.hasScheduleE form;
     Form.scheduleE := Form.scheduleE form;
     Form.hasScheduleD := Form.hasScheduleD form;
     Form.scheduleD := Form.scheduleD form;
     Form.scheduleK1 := Form.scheduleK1 form;
     Form.dependents := Form.dependents form |}.

Definition withDeductionType (s : option string) (form : Form.t) : Form.t :=
  {| Form.filingStatus := Form.filingStatus form;
     Form.deductionType := s;
     Form.useObbba2025 := Form.useObbba2025 form;
     Form.birthDate := Form.birthDate form;
     Form.fields := Form.fields form;
     Form.hasScheduleC := Form.hasScheduleC form;
     Form.scheduleC := Form.scheduleC form;
     Form.hasScheduleE := Form.hasScheduleE form;
     Form.scheduleE := Form.scheduleE form;
     Form.hasScheduleD := Form.hasScheduleD form;
     Form.scheduleD := Form.scheduleD form;
     Form.scheduleK1 := Form.scheduleK1 form;
     Form.dependents := Form.dependents form |}.

Definition withUseObbba2025 (b : option bool) (form : Form.t) : Form.t :=
  {| Form.filingStatus := Form.filingStatus form;
     Form.deductionType := Form.deductionType form;
     Form.useObbba2025 := b;
     Form.birthDate := Form.birthDate form;
     Form.fields := Form.fields form;
     Form.hasScheduleC := Form.hasScheduleC form;
     Form.scheduleC := Form.scheduleC form;
     Form.hasScheduleE := Form.hasScheduleE form;
     Form.scheduleE := Form.scheduleE form;
     Form.hasScheduleD := Form.hasScheduleD form;
     Form.scheduleD := Form.scheduleD form;
     Form.scheduleK1 := Form.scheduleK1 form;
     Form.dependents := Form.dependents form |}.

Definition withBirthDate (d : BirthDate) (form : Form.t) : Form.t :=
  {| Form.filingStatus := Form.filingStatus form;
     Form.deductionType := Form.deductionType form;
     Form.useObbba2025 := Form.useObbba2025 form;
     Form.birthDate := d;
     Form.fields := Form.fields form;
     Form.hasScheduleC := Form.hasScheduleC form;
     Form.scheduleC := Form.scheduleC form;
     Form.hasScheduleE := Form.hasScheduleE form;
     Form.scheduleE := Form.scheduleE form;
     Form.hasScheduleD := Form.hasScheduleD form;
     Form.scheduleD := Form.scheduleD form;
     Form.scheduleK1 := Form.scheduleK1 form;
     Form.dependents := Form.dependents form |}.

Definition withField (name : string) (q : Q) (form : Form.t) : Form.t :=
  {| Form.filingStatus := Form.filingStatus form;
     Form.deductionType := Form.deductionType form;
     Form.useObbba2025 := Form.useObbba2025 form;
     Form.birthDate := Form.birthDate form;
     Form.fields := setField name (Amount q) (Form.fields form);
     Form.hasScheduleC := Form.hasScheduleC form;
     Form.scheduleC := Form.scheduleC form;
     Form.hasScheduleE := Form.hasScheduleE form;
     Form.scheduleE := Form.scheduleE form;
     Form.hasScheduleD := Form.hasScheduleD form;
     Form.scheduleD := Form.scheduleD form;
     Form.scheduleK1 := Form.scheduleK1 form;
     Form.dependents := Form.dependents form |}.

Definition withScheduleE (o : Object) (form : Form.t) : Form.t :=
  {| Form.filingStatus := Form.filingStatus form;
     Form.deductionType := Form.deductionType form;
     Form.useObbba2025 := Form.useObbba2025 form;
     Form.birthDate := Form.birthDate form;
     Form.fields := Form.fields form;
     Form.hasScheduleC := Form.hasScheduleC form;
     Form.scheduleC := Form.scheduleC form;
     Form.hasScheduleE := true;
     Form.scheduleE := Some o;
     Form.hasScheduleD := Form.hasScheduleD form;
     Form.scheduleD := Form.scheduleD form;
     Form.scheduleK1 := Form.scheduleK1 form;
     Form.dependents := Form.dependents form |}.

(* ------------------------------------------------------------------------- *)
(** ** Policy resolver: [policy.js] *)

(** [getPolicyFlags(form).useObbba2025]: on unless the form turns it off. *)
Definition getPolicyFlags (form : Form.t) : bool :=
  match Form.useObbba2025 form with
  | Some b => b
  | None => true
  end.

Definition getSaltCap (filingStatus : string) (form : Form.t) : Q :=
  let useObbba2025 := getPolicyFlags form in
  if useObbba2025
  then (if String.eqb filingStatus "marriedSeparate" then 20000 else 40000)
  else (if String.eqb filingStatus "marriedSeparate" then 5000 else 10000).

(* ------------------------------------------------------------------------- *)
(** ** The pipeline: [calculateTotalTax]

    Each [const] of the source is a definition of the same name, a function
    of the form (and of the values it is computed from, where those come
    from a table lookup). *)

Open Scope js_scope.

(** [form.filingStatus || 'single']: an absent or empty status is falsy. *)
Definition filingStatus (form : Form.t) : string :=
  match Form.filingStatus form with
  | None | Some EmptyString => "single"
  | Some s => s
  end.

Definition totalWages (form : Form.t) : Q :=
  parseFloat (field form "totalWages") || 0.
Definition taxableInterest (form : Form.t) : Q :=
  parseFloat (field form "taxableInterest") || 0.
Definition ordinaryDividends (form : Form.t) : Q :=
  parseFloat (field form "ordinaryDividends") || 0.
Definition qualifiedDividends (form : Form.t) : Q :=
  parseFloat (field form "qualifiedDividends") || 0.
Definition taxableIra (form : Form.t) : Q :=
  parseFloat (field form "taxableIra") || 0.
Definition taxablePensions (form : Form.t) : Q :=
  parseFloat (field form "taxablePensions") || 0.
Definition taxableSocialSecurity (form : Form.t) : Q :=
  parseFloat (field form "taxableSocialSecurity") || 0.
Definition capitalGainLoss (form : Form.t) : Q :=
  parseFloat (field form "capitalGainLoss") || 0.
Definition otherIncome (form : Form.t) : Q :=
  parseFloat (field form "otherIncome") || 0.

(** Schedule C: [netProfit] wins over receipts minus expenses. *)
Definition scheduleC (form : Form.t) : Q :=
  match Form.hasScheduleC form, Form.scheduleC form with
  | true, Some c =>
      if defined (c "netProfit")
      then parseFloat (c "netProfit") || 0
      else (parseFloat (c "grossReceipts") || 0)
           - (parseFloat (c "expenses") || 0)
  | _, _ => 0
  end.

Definition scheduleE (form : Form.t) : Q :=
  match Form.hasScheduleE form, Form.scheduleE form with
  | true, Some e =>
      if defined (e "netIncome")
      then parseFloat (e "netIncome") || 0
      else (parseFloat (e "rentalIncome") || 0)
           - (parseFloat (e "rentalExpenses") || 0)
  | _, _ => 0
  end.

(** Schedule D: the four [let] variables after the [if]/[else if]. *)
Module ScheduleD.
Record t : Type := {
  shortTermGain : Q; shortTermLoss : Q; longTermGain : Q; longTermLoss : Q
}.
End ScheduleD.

Definition scheduleD (form : Form.t) : ScheduleD.t :=
  match Form.hasScheduleD form, Form.scheduleD form with
  | true, Some d =>
      {| ScheduleD.shortTermGain := parseFloat (d "shortTermGain") || 0;
         ScheduleD.shortTermLoss := Qabs (parseFloat (d "shortTermLoss") || 0);
         ScheduleD.longTermGain := parseFloat (d "longTermGain") || 0;
         ScheduleD.longTermLoss := Qabs (parseFloat (d "longTermLoss") || 0) |}
  | _, _ =>
      if defined (field form "capitalGainLoss") then
        let net := parseFloat (field form "capitalGainLoss") || 0 in
        if net >=? 0
        then {| ScheduleD.shortTermGain := 0; ScheduleD.shortTermLoss := 0;
                ScheduleD.longTermGain := net; ScheduleD.longTermLoss := 0 |}
        else {| ScheduleD.shortTermGain := 0; ScheduleD.shortTermLoss := 0;
                ScheduleD.longTermGain := 0;
                ScheduleD.longTermLoss := Qabs net |}
      else {| ScheduleD.shortTermGain := 0; ScheduleD.shortTermLoss := 0;
              ScheduleD.longTermGain := 0; ScheduleD.longTermLoss := 0 |}
  end.

Definition netShortTerm (form : Form.t) : Q :=
  ScheduleD.shortTermGain (scheduleD form)
  - ScheduleD.shortTermLoss (scheduleD form).
Definition netLongTerm (form : Form.t) : Q :=
  ScheduleD.longTermGain (scheduleD form)
  - ScheduleD.longTermLoss (scheduleD form).
Definition netCapital (form : Form.t) : Q :=
  netShortTerm form + netLongTerm form.
Definition capLossLimit (form : Form.t) : Q :=
  if String.eqb (filingStatus form) "marriedSeparate" then 1500 else 3000.
Definition cappedCapitalForAGI (form : Form.t) : Q :=
  if netCapital form >=? 0 then netCapital form
  else - Qmin (capLossLimit form) (Qabs (netCapital form)).

Definition totalIncome (form : Form.t) : Q :=
  totalWages form + taxableInterest form + ordinaryDividends form
  + taxableIra form + taxablePensions form + taxableSocialSecurity form
  + otherIncome form + scheduleC form + scheduleE form
  + cappedCapitalForAGI form.

(** [calculateAge]: [today] is what [new Date()] returns when the function
    runs.  [None] is NaN, the age of an invalid date. *)
Definition calculateAge (today : Date) (birthDate : BirthDate) : option Z :=
  match birthDate with
  | NoBirthDate => Some 40%Z
  | InvalidDate => None
  | Born birth =>
      let age := (getFullYear today - getFullYear birth)%Z in
      let monthDiff := (getMonth today - getMonth birth)%Z in
      if ((monthDiff <? 0)%Z
          || ((monthDiff =? 0)%Z && (getDate today <? getDate birth)%Z))%bool
      then Some (age - 1)%Z
      else Some age
  end.

(** [limits] of [getPhaseOutPct]: [(start, end)]. *)
Definition phaseOutLimits (filingStatus : string) : Q * Q :=
  if String.eqb filingStatus "married"
  then (300000, 550000)
  else (150000, 400000).

Definition getPhaseOutPct (filingStatus : string) (income : Q) : Q :=
  let limits := phaseOutLimits filingStatus in
  if income <=? fst limits then 1.0
  else if income >=? snd limits then 0.0
  else 1.0 - ((income - fst limits) / (snd limits - fst limits)).

Definition tentativeTotalIncome (form : Form.t) : Q := totalIncome form.

Definition tentativeAdjustments (form : Form.t) : Q :=
  (parseFloat (field form "educatorExpenses") || 0)
  + (parseFloat (field form "hsaDeduction") || 0)
  + (parseFloat (field form "selfEmploymentTaxDeduction") || 0)
  + (parseFloat (field form "selfEmployedSEPSimple") || 0)
  + (parseFloat (field form "selfEmployedHealthInsurance") || 0)
  + (parseFloat (field form "penaltyEarlyWithdrawal") || 0)
  + (parseFloat (field form "alimonyPaid") || 0)
  + (parseFloat (field form "iraDeduction") || 0)
  + (parseFloat (field form "studentLoanInterest") || 0).

Definition magiForPhaseOut (form : Form.t) : Q :=
  tentativeTotalIncome form - tentativeAdjustments form.

Definition phaseOutPct (form : Form.t) : Q :=
  getPhaseOutPct (filingStatus form) (magiForPhaseOut form).

Definition useObbba2025 (form : Form.t) : bool := getPolicyFlags form.

Definition tipsDeduction (form : Form.t) : Q :=
  if useObbba2025 form
  then Qmin (parseFloat (field form "tipIncome") || 0) 25000 * phaseOutPct form
  else 0.

Definition overtimeDeduction (form : Form.t) : Q :=
  if useObbba2025 form
  then Qmin (parseFloat (field form "overtimeIncome") || 0) 12500
       * phaseOutPct form
  else 0.

Definition autoLoanDeduction (form : Form.t) : Q :=
  if useObbba2025 form
  then Qmin (parseFloat (field form "autoLoanInterest") || 0) 10000
  else 0.

(** [age >= 65], false when the age is NaN. *)
Definition atLeast65 (age : option Z) : bool :=
  match age with
  | Some a => (65 <=? a)%Z
  | None => false
  end.

Definition seniorBonus (today : Date) (form : Form.t) : Q :=
  if (useObbba2025 form
      && atLeast65 (calculateAge today (Form.birthDate form)))%bool
  then 6000 else 0.

Definition wagesForSET (form : Form.t) : Q :=
  parseFloat (field form "totalWages") || 0.

Definition totalAdjustments (today : Date) (form : Form.t)
    (seTaxDeductionComputed : Q) : Q :=
  (parseFloat (field form "educatorExpenses") || 0)
  + (parseFloat (field form "hsaDeduction") || 0)
  + Qmax (parseFloat (field form "selfEmploymentTaxDeduction") || 0)
         seTaxDeductionComputed
  + (parseFloat (field form "selfEmployedSEPSimple") || 0)
  + (parseFloat (field form "selfEmployedHealthInsurance") || 0)
  + (parseFloat (field form "penaltyEarlyWithdrawal") || 0)
  + (parseFloat (field form "alimonyPaid") || 0)
  + (parseFloat (field form "iraDeduction") || 0)
  + (parseFloat (field form "studentLoanInterest") || 0)
  + tipsDeduction form
  + overtimeDeduction form
  + autoLoanDeduction form
  + seniorBonus today form.

Definition saltCap (form : Form.t) : Q := getSaltCap (filingStatus form) form.

Definition actualSalt (form : Form.t) : Q :=
  Qmin ((parseFloat (field form "stateLocalTaxes") || 0)
        + (parseFloat (field form "realEstateTaxes") || 0))
       (saltCap form).

Definition medicalDeductible (form : Form.t) (agi : Q) : Q :=
  Qmax 0 ((parseFloat (field form "medicalExpenses") || 0) - agi * 0.075).

Definition itemizedTotal (form : Form.t) (agi : Q) : Q :=
  medicalDeductible form agi
  + actualSalt form
  + (parseFloat (field form "mortgageInterest") || 0)
  + (parseFloat (field form "charityCash") || 0)
  + (parseFloat (field form "charityNonCash") || 0)
  + (parseFloat (field form "casualtyLosses") || 0)
  + (parseFloat (field form "otherItemized") || 0).

(** [form.deductionType === 'itemized'] *)
Definition itemizes (form : Form.t) : bool :=
  match Form.deductionType form with
  | Some s => String.eqb s "itemized"
  | None => false
  end.

Definition qbiDeduction (form : Form.t) (agi deduction : Q) : Q :=
  let guaranteedPayments :=
    parseFloat (optionalField (Form.scheduleK1 form) "guaranteedPayments")
    || 0 in
  let partnershipIncome :=
    orNumber (parseFloat (field form "partnershipIncome"))
             (parseFloat (optionalField (Form.scheduleK1 form)
                                        "ordinaryIncome"))
    || 0 in
  let sCorpIncome := parseFloat (field form "sCorpIncome") || 0 in
  let qbiEligible :=
    Qmax 0 (scheduleC form)
    + Qmax 0 (partnershipIncome + sCorpIncome - guaranteedPayments) in
  if qbiEligible >? 0 then
    let tentativeQBI := qbiEligible * 0.20 in
    let taxableBeforeQBI := Qmax 0 (agi - deduction) in
    let netCapGainForLimit :=
      Qmax 0 (netLongTerm form) + Qmax 0 (qualifiedDividends form) in
    let limit := (taxableBeforeQBI - netCapGainForLimit) * 0.20 in
    Qmin tentativeQBI (Qmax 0 limit)
  else 0.

Definition totalQualifiedIncome (form : Form.t) : Q :=
  qualifiedDividends form + Qmax 0 (netLongTerm form).

Definition netPositiveCap (form : Form.t) : Q := Qmax 0 (netCapital form).

Definition investmentIncome (form : Form.t) : Q :=
  taxableInterest form + ordinaryDividends form + netPositiveCap form
  + scheduleE form.

(** Credits *)
Definition qualifyingChildren (form : Form.t) : Q :=
  inject_Z (Z.of_nat (List.length
    (filter (fun d => (Dependent.qualifyingChild d
                       && Dependent.childTaxCredit d)%bool)
            (Form.dependents form)))).

Definition otherDependents (form : Form.t) : Q :=
  inject_Z (Z.of_nat (List.length
    (filter (fun d => negb (Dependent.qualifyingChild d))
            (Form.dependents form)))).

Definition estimatedChildCredit (form : Form.t) : Q :=
  qualifyingChildren form * 2000.
Definition estimatedOtherDependentsCredit (form : Form.t) : Q :=
  otherDependents form * 500.

Definition totalCredits (form : Form.t) : Q :=
  (parseFloat (field form "childTaxCredit") || estimatedChildCredit form)
  + (parseFloat (field form "creditOtherDependents")
     || estimatedOtherDependentsCredit form)
  + (parseFloat (field form "educationCredits") || 0)
  + (parseFloat (field form "retirementSaversCredit") || 0)
  + (parseFloat (field form "childCareCredit") || 0)
  + (parseFloat (field form "earnedIncomeCredit") || 0)
  + (parseFloat (field form "otherCredits") || 0).

Definition nonRefundableCredits (form : Form.t) : Q :=
  (parseFloat (field form "childTaxCredit") || estimatedChildCredit form)
  + (parseFloat (field form "creditOtherDependents")
     || estimatedOtherDependentsCredit form)
  + (parseFloat (field form "educationCredits") || 0)
  + (parseFloat (field form "retirementSaversCredit") || 0)
  + (parseFloat (field form "childCareCredit") || 0).

Definition refundableCredits (form : Form.t) : Q :=
  (parseFloat (field form "earnedIncomeCredit") || 0)
  + (parseFloat (field form "otherCredits") || 0).

(** Payments *)
Definition totalWithholding (form : Form.t) : Q :=
  parseFloat (field form "totalWithholding") || 0.
Definition estimatedPayments (form : Form.t) : Q :=
  parseFloat (field form "estimatedTaxPayments") || 0.
Definition priorYearApplied (form : Form.t) : Q :=
  parseFloat (field form "amountAppliedFromPriorYear") || 0.
Definition totalPayments (form : Form.t) : Q :=
  totalWithholding form + estimatedPayments form + priorYearApplied form.

Module TaxResult.
Record t : Type := {
  totalIncome : Q;
  totalAdjustments : Q;
  agi : Q;
  deduction : Q;
  taxableIncome : Q;
  regularTax : Q;
  capitalGainsTax : Q;
  seTax : Q;
  totalTaxBeforeCredits : Q;
  totalCredits : Q;
  finalTax : Q;
  totalPayments : Q;
  refundOrOwed : Q;
  isRefund : bool
}.
End TaxResult.

(** [calculateTotalTax(form)], run when the clock reads [today].

    [None]: no numeric Tax Result.  It arises only when the filing status
    names an inherited member of the tables (see [orFallback]).  The source
    then throws a TypeError while reading brackets, or returns a record with
    NaN in it: [calculateNIIT] subtracts the member from the AGI, for every
    form. *)
Definition calculateTotalTax (today : Date) (form : Form.t) : option TaxResult.t :=
  let filingStatus := filingStatus form in
  let totalIncome := totalIncome form in
  let wagesForSET := wagesForSET form in
  let* se :=
    calculateSelfEmploymentTax (scheduleC form) wagesForSET filingStatus in
  let seTaxDeductionComputed := SE.deduction se in
  let totalAdjustments := totalAdjustments today form seTaxDeductionComputed in
  let agi := totalIncome - totalAdjustments in
  let* standardDeduction :=
    orFallback (getProperty STANDARD_DEDUCTIONS_2025 filingStatus)
               STANDARD_DEDUCTIONS_2025_single in
  let itemizedTotal := itemizedTotal form agi in
  let deduction := if itemizes form then itemizedTotal else standardDeduction in
  let qbiDeduction := qbiDeduction form agi deduction in
  let taxableIncome := Qmax 0 (agi - deduction - qbiDeduction) in
  let totalQualifiedIncome := totalQualifiedIncome form in
  let ordinaryTaxableIncome := Qmax 0 (taxableIncome - totalQualifiedIncome) in
  let* brackets :=
    orFallback (getProperty TAX_BRACKETS_2025 filingStatus)
               TAX_BRACKETS_2025_single in
  let regularTax := calculateBracketTax ordinaryTaxableIncome brackets in
  let* capitalGainsTax :=
    calculateCapitalGainsTax ordinaryTaxableIncome totalQualifiedIncome
                             filingStatus in
  let* se' :=
    calculateSelfEmploymentTax (scheduleC form) wagesForSET filingStatus in
  let seTax := SE.tax se' in
  let* niit := calculateNIIT agi (investmentIncome form) filingStatus in
  let totalTaxBeforeCredits := regularTax + capitalGainsTax + seTax + niit in
  let taxAfterNonRefundable :=
    Qmax 0 (totalTaxBeforeCredits - nonRefundableCredits form) in
  let finalTax := taxAfterNonRefundable - refundableCredits form in
  let refundOrOwed := totalPayments form - finalTax in
  Some {| TaxResult.totalIncome := totalIncome;
          TaxResult.totalAdjustments := totalAdjustments;
          TaxResult.agi := agi;
          TaxResult.deduction := deduction;
          TaxResult.taxableIncome := taxableIncome;
          TaxResult.regularTax := regularTax;
          TaxResult.capitalGainsTax := capitalGainsTax;
          TaxResult.seTax := seTax;
          TaxResult.totalTaxBeforeCredits := totalTaxBeforeCredits;
          TaxResult.totalCredits := totalCredits form;
          TaxResult.finalTax := finalTax;
          TaxResult.totalPayments := totalPayments form;
          TaxResult.refundOrOwed := refundOrOwed;
          TaxResult.isRefund := refundOrOwed >=? 0 |}.

(** [calculateTaxWithOverrides(form, { filingStatus })] and the like are
    [calculateTotalTax] on the updated form ([withFilingStatus], ...). *)

(* ------------------------------------------------------------------------- *)
(** ** Vocabulary of the statements *)

(** The fields named in [names] hold no negative amount. *)
Definition nonnegative (form : Form.t) (names : list string) : Prop :=
  Forall (fun name => forall q, field form name = Amount q -> 0 <= q) names.

Definition newDeductionFields : list string :=
  [ "tipIncome"; "overtimeIncome"; "autoLoanInterest" ].

Definition adjustmentFields : list string :=
  [ "educatorExpenses"; "hsaDeduction"; "selfEmployedSEPSimple";
    "selfEmployedHealthInsurance"; "penaltyEarlyWithdrawal"; "alimonyPaid";
    "iraDeduction"; "studentLoanInterest" ] ++ newDeductionFields.

Definition itemizedFields : list string :=
  [ "stateLocalTaxes"; "realEstateTaxes"; "mortgageInterest"; "charityCash";
    "charityNonCash"; "casualtyLosses"; "otherItemized" ].

Definition creditFields : list string :=
  [ "childTaxCredit"; "creditOtherDependents"; "educationCredits";
    "retirementSaversCredit"; "childCareCredit"; "earnedIncomeCredit";
    "otherCredits" ].

Definition paymentFields : list string :=
  [ "totalWithholding"; "estimatedTaxPayments"; "amountAppliedFromPriorYear" ].

(** State and local taxes paid, before the cap. *)
Definition saltPaid (form : Form.t) : Q :=
  (parseFloat (field form "stateLocalTaxes") || 0)
  + (parseFloat (field form "realEstateTaxes") || 0).

(** The adjustments that are not new OBBBA deductions, given the computed
    half of the self-employment tax. *)
Definition otherAdjustments (form : Form.t) (seTaxDeductionComputed : Q) : Q :=
  (parseFloat (field form "educatorExpenses") || 0)
  + (parseFloat (field form "hsaDeduction") || 0)
  + Qmax (parseFloat (field form "selfEmploymentTaxDeduction") || 0)
         seTaxDeductionComputed
  + (parseFloat (field form "selfEmployedSEPSimple") || 0)
  + (parseFloat (field form "selfEmployedHealthInsurance") || 0)
  + (parseFloat (field form "penaltyEarlyWithdrawal") || 0)
  + (parseFloat (field form "alimonyPaid") || 0)
  + (parseFloat (field form "iraDeduction") || 0)
  + (parseFloat (field form "studentLoanInterest") || 0).

(** The five keys of the per-status tables. *)
Definition listed (s : string) : bool :=
  existsb (String.eqb s)
          [ "single"; "married"; "marriedSeparate"; "head"; "widow" ].

(** The statuses the code treats as ['single']: ['single'] itself, which an
    absent or empty status is read as, and every string that is neither a
    key of the tables nor an inherited member. *)
Definition singleLike (s : string) : Prop :=
  s = "single" \/ (listed s = false /\ inherited s = false).

(** The clock on two days, and forms used as examples. *)
Definition june30 : Date :=
  {| getFullYear := 2025; getMonth := 5; getDate := 30 |}.
Definition july1 : Date :=
  {| getFullYear := 2025; getMonth := 6; getDate := 1 |}.

(** [{ filingStatus: 'single', totalWages: 500000, autoLoanInterest: 5000,
       useObbba2025: true }] *)
Definition highEarnerWithCarLoan : Form.t :=
  withField "autoLoanInterest" 5000
    (withField "totalWages" 500000
      (withUseObbba2025 (Some true)
        (withFilingStatus (Some "single") emptyForm))).

(** [{ filingStatus: 'single', capitalGainLoss: -10000 }] *)
Definition capitalLossOnly : Form.t :=
  withField "capitalGainLoss" (-10000)
    (withFilingStatus (Some "single") emptyForm).

(** [{ filingStatus: 'single', totalWages: 300000, hasScheduleE: true,
       scheduleE: { netIncome: -290000 } }] *)
Definition largeRentalLoss : Form.t :=
  withScheduleE (setField "netIncome" (Amount (-290000)) emptyObject)
    (withField "totalWages" 300000
      (withFilingStatus (Some "single") emptyForm)).

(** The form of the repository's SALT test, and the same form taking the
    standard deduction. *)
Definition saltItemizer : Form.t :=
  withField "realEstateTaxes" 10000
    (withField "stateLocalTaxes" 50000
      (withDeductionType (Some "itemized")
        (withField "totalWages" 150000
          (withFilingStatus (Some "single") emptyForm)))).

Definition saltStandard : Form.t :=
  withDeductionType (Some "standard") saltItemizer.

(** [{ filingStatus: 'single', totalWages: 60000, birthDate }] of a filer
    born on 1 July 1960 (months count from 0). *)
Definition turning65 : Form.t :=
  withBirthDate
    (Born {| getFullYear := 1960; getMonth := 6; getDate := 1 |})
    (withField "totalWages" 60000
      (withFilingStatus (Some "single") emptyForm)).

(** [{ filingStatus: 'constructor', totalWages: 50000 }] *)
Definition constructorStatus : Form.t :=
  withField "totalWages" 50000
    (withFilingStatus (Some "constructor") emptyForm).

(* ------------------------------------------------------------------------- *)
(** ** Helpers of the optimizer modules *)

(** [getMarginalRate] of the PTET optimizer: the federal marginal rate at a
    taxable income, on the single-filer thresholds. *)
Definition getMarginalRate (taxableIncome : Q) : Q :=
  if taxableIncome >? 626350 then 0.37
  else if taxableIncome >? 250525 then 0.35
  else if taxableIncome >? 197300 then 0.32
  else if taxableIncome >? 103350 then 0.24
  else if taxableIncome >? 48475 then 0.22
  else if taxableIncome >? 11925 then 0.12
  else 0.10.


(* ------------------------------------------------------------------------- *)
(** ** Vocabulary of the further statements *)

(** The rate of the first bracket of a schedule. *)
Definition firstRate (brackets : Schedule) : Q :=
  match brackets with
  | (_, rate) :: _ => rate
  | [] => 0
  end.

(** The rate of the bracket an income falls in: the bracket in which the
    loop of [calculateBracketTax] stops. *)
Fixpoint rateAt (brackets : Schedule) (income : Q) : Q :=
  match brackets with
  | [] => 0
  | (_, rate) :: rest =>
      match rest with
      | (nextLimit, _) :: _ =>
          if income >? nextLimit then rateAt rest income else rate
      | [] => rate
      end
  end.

(** The thresholds of the 15% and of the 20% capital-gains rate, as
    [CAPITAL_GAINS_BRACKETS_2025] has them. *)
Definition capitalGainsThresholds (status : FilingStatus) : Q * Q :=
  match status with
  | single => (48350, 533400)
  | married | widow => (96700, 600050)
  | marriedSeparate => (48350, 300025)
  | head => (64750, 566700)
  end.

(** A capital-gains schedule: 0% from 0, 15% from [t15], 20% from [t20]. *)
Definition threeTier (t15 t20 : Q) : Schedule :=
  [ (0, 0); (t15, 0.15); (t20, 0.20) ].

(** The Additional Medicare threshold of each filing status, as the table
    inside [calculateSelfEmploymentTax] has them. *)
Definition additionalMedicareThreshold (status : FilingStatus) : Q :=
  match status with
  | single | head => 200000
  | married | widow => 250000
  | marriedSeparate => 125000
  end.

(** [qbiEligible] inside the QBI block of [calculateTotalTax]. *)
Definition qbiEligible (form : Form.t) : Q :=
  let guaranteedPayments :=
    parseFloat (optionalField (Form.scheduleK1 form) "guaranteedPayments")
    || 0 in
  let partnershipIncome :=
    orNumber (parseFloat (field form "partnershipIncome"))
             (parseFloat (optionalField (Form.scheduleK1 form)
                                        "ordinaryIncome"))
    || 0 in
  let sCorpIncome := parseFloat (field form "sCorpIncome") || 0 in
  Qmax 0 (scheduleC form)
  + Qmax 0 (partnershipIncome + sCorpIncome - guaranteedPayments).

(** Income other than capital gains and losses, as [totalIncome] adds it. *)
Definition incomeBeforeCapital (form : Form.t) : Q :=
  totalWages form + taxableInterest form + ordinaryDividends form
  + taxableIra form + taxablePensions form + taxableSocialSecurity form
  + otherIncome form + scheduleC form + scheduleE form.

(* ------------------------------------------------------------------------- *)
(** ** Graduated rates of the PTET optimizer *)

(** The upper bound of a rate bracket: a number or [Infinity]. *)
Inductive Bound : Type :=
  | Finite (q : Q)
  | Infinity.

(** [income <= bound]. *)
Definition within (income : Q) (bound : Bound) : bool :=
  match bound with
  | Finite q => income <=? q
  | Infinity => true
  end.

(** A bracket [{ min, max, rate, description }] of a graduated-rate PTET
    program. *)
Module RateBracket.
Record t : Type := mk
  { min : Q;
    max : Bound;
    rate : Q;
    description : string }.
End RateBracket.

(** [rates[rates.length - 1]]: [undefined] on an empty array. *)
Definition lastElement (rates : list RateBracket.t) : option RateBracket.t :=
  List.last (List.map Some rates) None.

(** The loop of [getPTETGraduatedRate] over the brackets still to visit;
    after the last one the function reads the rate of [rates[rates.length -
    1]], which throws on an empty array. *)
Fixpoint graduatedLoop (rates rest : list RateBracket.t) (income : Q)
  : option Q :=
  match rest with
  | [] =>
      let* last := lastElement rates in
      Some (RateBracket.rate last)
  | bracket :: rest' =>
      if within income (RateBracket.max bracket)
      then Some (RateBracket.rate bracket)
      else graduatedLoop rates rest' income
  end.

Definition getPTETGraduatedRate (rates : list RateBracket.t) (income : Q)
  : option Q :=
  graduatedLoop rates rates income.

(** The bracket [analyzePTETElection] picks for a graduated program:
    [program.rates.find(r => passThroughIncome <= r.max) ||
     program.rates[program.rates.length - 1]], and its rate. *)
Definition electionBracket (rates : list RateBracket.t)
    (passThroughIncome : Q) : option RateBracket.t :=
  match List.find (fun r => within passThroughIncome (RateBracket.max r))
                  rates with
  | Some bracket => Some bracket
  | None => lastElement rates
  end.

Definition electionRate (rates : list RateBracket.t) (passThroughIncome : Q)
  : option Q :=
  let* bracket := electionBracket rates passThroughIncome in
  Some (RateBracket.rate bracket).

(** The rates of a table do not decrease from one bracket to the next. *)
Definition nondecreasingRates (rates : list RateBracket.t) : Prop :=
  Sorted (fun x y => RateBracket.rate x <= RateBracket.rate y) rates.

(** The graduated rates of New York's program. *)
Definition NY_rates : list RateBracket.t :=
  [ RateBracket.mk 0 (Finite 2000000) 0.0685 "Up to $2M";
    RateBracket.mk 2000000 (Finite 5000000) 0.0965 "$2M - $5M";
    RateBracket.mk 5000000 (Finite 25000000) 0.1030 "$5M - $25M";
    RateBracket.mk 25000000 Infinity 0.1090 "Over $25M" ].

(* ------------------------------------------------------------------------- *)
(** ** The regular tax of a filing status *)

(** The regular tax [calculateTotalTax] computes on an ordinary income for a
    filing status of the data model: the schedule is
    [TAX_BRACKETS_2025[filingStatus] || TAX_BRACKETS_2025.single]. *)
Definition regularTaxFor (status : FilingStatus) (ordinaryIncome : Q)
  : option Q :=
  let* brackets :=
    orFallback (getProperty TAX_BRACKETS_2025 (key status))
               TAX_BRACKETS_2025_single in
  Some (calculateBracketTax ordinaryIncome brackets).

(* ------------------------------------------------------------------------- *)
(** ** The host: system clock and time zone *)

(** [calculateAge] reads two things that are not in the form: the system
    clock, by [new Date()], and the time zone of the process, by the local
    getters [getFullYear], [getMonth] and [getDate] it calls on [today] and on
    [new Date(form.birthDate)].  In [calculateTotalTax today form] the two
    readings are already made: [today] and [Form.birthDate form] hold local
    fields.  Here they are made from the form as the caller writes it. *)

(** [form.birthDate] as the caller writes it: a falsy value, a value
    [new Date] makes an Invalid Date of, or a date-only string
    ['YYYY-MM-DD'], which [new Date] reads as midnight UTC of that day; [day]
    holds the fields of the string, the month counted from 0 as [getMonth]
    counts it.  A time stamp, a [Date] or a date-time string is read by the
    same getters; the date-only string is the one written here. *)
Inductive BirthDateValue : Type :=
  | Falsy
  | NotADate
  | DateOnly (day : Date).

Module Host.
Record t : Type := {
  (** the local fields of [new Date()] *)
  today : Date;
  (** local time minus UTC, in minutes, more than -1440 and less than 1440 *)
  utcOffset : Z
}.
End Host.

Definition isLeapYear (year : Z) : bool :=
  ((year mod 4 =? 0)%Z
   && (negb (year mod 100 =? 0)%Z || (year mod 400 =? 0)%Z))%bool.

(** Days of a month, the month counted from 0. *)
Definition daysInMonth (year month : Z) : Z :=
  if (month =? 1)%Z then (if isLeapYear year then 29 else 28)%Z
  else if ((month =? 3) || (month =? 5) || (month =? 8) || (month =? 10))%Z%bool
       then 30%Z
       else 31%Z.

Definition previousDay (day : Date) : Date :=
  if (1 <? getDate day)%Z
  then {| getFullYear := getFullYear day;
          getMonth := getMonth day;
          getDate := (getDate day - 1)%Z |}
  else if (0 <? getMonth day)%Z
  then {| getFullYear := getFullYear day;
          getMonth := (getMonth day - 1)%Z;
          getDate := daysInMonth (getFullYear day) (getMonth day - 1) |}
  else {| getFullYear := (getFullYear day - 1)%Z;
          getMonth := 11%Z;
          getDate := 31%Z |}.

(** The local fields of midnight UTC of [day]: west of UTC it is still the
    evening of the day before. *)
Definition localFields (utcOffset : Z) (day : Date) : Date :=
  if (utcOffset <? 0)%Z then previousDay day else day.

(** [new Date(form.birthDate)], by its local fields. *)
Definition readBirthDate (host : Host.t) (value : BirthDateValue)
  : BirthDate :=
  match value with
  | Falsy => NoBirthDate
  | NotADate => InvalidDate
  | DateOnly day => Born (localFields (Host.utcOffset host) day)
  end.

(** A Tax Form as the caller writes it: the birth date, and every other
    property. *)
Module TaxForm.
Record t : Type := {
  birthDate : BirthDateValue;
  others : Form.t
}.
End TaxForm.

(** The form as [calculateTotalTax] reads it in a host. *)
Definition formIn (host : Host.t) (form : TaxForm.t) : Form.t :=
  withBirthDate (readBirthDate host (TaxForm.birthDate form))
                (TaxForm.others form).

(** [calculateTotalTax(form)], run in a host. *)
Definition calculateTotalTaxIn (host : Host.t) (form : TaxForm.t)
  : option TaxResult.t :=
  calculateTotalTax (Host.today host) (formIn host form).

(** The condition of the senior bonus,
    [useObbba2025 && calculateAge(form.birthDate) >= 65], in a host. *)
Definition seniorIn (host : Host.t) (form : TaxForm.t) : bool :=
  (useObbba2025 (formIn host form)
   && atLeast65 (calculateAge (Host.today host)
                              (Form.birthDate (formIn host form))))%bool.

(** The calendar order of two dates. *)
Definition notAfter (a b : Date) : Prop :=
  (getFullYear a < getFullYear b
   \/ (getFullYear a = getFullYear b
       /\ (getMonth a < getMonth b
           \/ (getMonth a = getMonth b /\ getDate a <= getDate b))))%Z.

(** 30 June 2025 in a zone four hours west of UTC (New York in summer), and
    in UTC. *)
Definition newYork_june30 : Host.t :=
  {| Host.today := june30; Host.utcOffset := (-240)%Z |}.
Definition utc_june30 : Host.t :=
  {| Host.today := june30; Host.utcOffset := 0%Z |}.
Definition utc_july1 : Host.t :=
  {| Host.today := july1; Host.utcOffset := 0%Z |}.

(** [{ filingStatus: 'single', totalWages: 60000,
       birthDate: '1960-07-01' }] *)
Definition born1960July1 : TaxForm.t :=
  {| TaxForm.birthDate :=
       DateOnly {| getFullYear := 1960; getMonth := 6; getDate := 1 |};
     TaxForm.others :=
       withField "totalWages" 60000
         (withFilingStatus (Some "single") emptyForm) |}.

(** [{ filingStatus: 'single', totalWages: 300000, hasScheduleE: true,
       scheduleE: { netIncome: -50000 } }], and
    [{ filingStatus: 'single', totalWages: 250000 }], which has the same AGI
    and no rental activity. *)
Definition rentalLoss : Form.t :=
  withScheduleE (setField "netIncome" (Amount (-50000)) emptyObject)
    (withField "totalWages" 300000
      (withFilingStatus (Some "single") emptyForm)).
Definition wagesOnly : Form.t :=
  withField "totalWages" 250000
    (withFilingStatus (Some "single") emptyForm).
(* ------------------------------------------------------------------------- *)
(** ** Properties of the bracket engine *)

Lemma Qleb_spec (a b : Q) : reflect (a <= b) (a <=? b).
Proof.
  unfold Qleb. destruct (Qle_bool a b) eqn:E; constructor.
  - now apply Qle_bool_iff.
  - intros H. apply Qle_bool_iff in H. congruence.
Qed.

Lemma Qgtb_spec (a b : Q) : reflect (b < a) (a >? b).
Proof.
  unfold Qgtb. destruct (Qle_bool a b) eqn:E; constructor.
  - apply Qle_bool_iff in E. lra.
  - apply Qnot_le_lt. intros H. apply Qle_bool_iff in H. congruence.
Qed.

Lemma Qgeb_spec (a b : Q) : reflect (b <= a) (a >=? b).
Proof. unfold Qgeb. apply (Qleb_spec b a). Qed.

Lemma Qmax_0_nonneg (x : Q) : 0 <= Qmax 0 x.
Proof. apply Q.le_max_l. Qed.

(** Case analysis on [Qmax] and [Qmin] for linear arithmetic. *)
Ltac split_max a b :=
  let H := fresh "Hmax" in
  destruct (Q.max_spec a b) as [[? H] | [? H]].
Ltac split_min a b :=
  let H := fresh "Hmin" in
  destruct (Q.min_spec a b) as [[? H] | [? H]].

Lemma bracketLoop_acc (income : Q) (brackets : Schedule) (tax : Q) :
  bracketLoop income brackets tax == tax + bracketLoop income brackets 0.
Proof.
  revert tax. induction brackets as [| [limit rate] rest IH]; intros tax.
  - simpl. lra.
  - simpl. destruct rest as [| [nextLimit nextRate] rest'].
    + lra.
    + destruct (income >? nextLimit).
      * rewrite (IH (tax + (nextLimit - limit) * rate)).
        rewrite (IH (0 + (nextLimit - limit) * rate)). lra.
      * lra.
Qed.

Lemma bracketLoop_step (income limit rate nextLimit nextRate : Q)
    (rest : Schedule) (tax : Q) :
  bracketLoop income ((limit, rate) :: (nextLimit, nextRate) :: rest) tax =
  if income >? nextLimit
  then bracketLoop income ((nextLimit, nextRate) :: rest)
                   (tax + (nextLimit - limit) * rate)
  else tax + (income - limit) * rate.
Proof. reflexivity. Qed.

Lemma bracketLoop_base (limit rate : Q) (rest : Schedule) :
  ascending ((limit, rate) :: rest) ->
  bracketLoop limit ((limit, rate) :: rest) 0 == 0.
Proof.
  simpl. destruct rest as [| [nextLimit nextRate] rest'].
  - intros _. lra.
  - intros [Hlt _]. destruct (Qgtb_spec limit nextLimit); lra.
Qed.

Lemma maxRate_nonneg (brackets : Schedule) : 0 <= maxRate brackets.
Proof.
  induction brackets as [| b rest IH]; simpl.
  - lra.
  - split_max (snd b) (maxRate rest); lra.
Qed.

Lemma maxRate_head (b : Q * Q) (rest : Schedule) :
  snd b <= maxRate (b :: rest) /\ maxRate rest <= maxRate (b :: rest).
Proof.
  simpl. split_max (snd b) (maxRate rest); split; lra.
Qed.

(** [x * d <= y * d] for [x <= y] and [0 <= d], added to the context: the
    products of two unknowns that linear arithmetic cannot derive. *)
Ltac scale x y d :=
  let H := fresh "Hscale" in
  assert (H : x * d <= y * d) by (apply Qmult_le_compat_r; lra).

(** Between two incomes [a <= b] above the first threshold, the loop grows
    at a rate [r] that lies between the first rate and the largest one; the
    same [r] bounds the tax at [a] by [r * (a - limit)]. *)
Lemma bracketLoop_increment (brackets : Schedule) :
  ascending brackets ->
  forall limit rate rest, brackets = (limit, rate) :: rest ->
  forall a b, limit <= a -> a <= b ->
  exists r,
    rate <= r /\ r <= maxRate brackets /\
    bracketLoop a brackets 0 <= r * (a - limit) /\
    r * (b - a) <= bracketLoop b brackets 0 - bracketLoop a brackets 0 /\
    bracketLoop b brackets 0 - bracketLoop a brackets 0
      <= maxRate brackets * (b - a).
Proof.
  induction brackets as [| [l0 r0] tail IH];
    intros Hasc limit rate rest Heq a b Hla Hab.
  - discriminate.
  - injection Heq as <- <- <-.
    destruct (maxRate_head (l0, r0) tail) as [Hr0 Htail]. simpl snd in Hr0.
    remember (maxRate ((l0, r0) :: tail)) as R eqn:ER. clear ER.
    destruct tail as [| [l1 r1] tail'].
    + exists r0. simpl. scale r0 R (b - a). repeat split; lra.
    + destruct Hasc as [Hl [Hr Hasc']].
      specialize (IH Hasc' l1 r1 tail' eq_refl).
      assert (Hbase := bracketLoop_base l1 r1 tail' Hasc').
      remember (maxRate ((l1, r1) :: tail')) as R' eqn:ER'. clear ER'.
      rewrite !bracketLoop_step.
      destruct (Qgtb_spec a l1) as [Ha | Ha];
        destruct (Qgtb_spec b l1) as [Hb | Hb]; try lra.
      * (* both incomes beyond this bracket *)
        destruct (IH a b) as [r [H1 [H2 [H3 [H4 H5]]]]]; try lra.
        assert (Ea := bracketLoop_acc a ((l1, r1) :: tail') (0 + (l1 - l0) * r0)).
        assert (Eb := bracketLoop_acc b ((l1, r1) :: tail') (0 + (l1 - l0) * r0)).
        exists r. scale r0 r (l1 - l0). scale R' R (b - a).
        repeat split; lra.
      * (* a in this bracket, b beyond it *)
        destruct (IH l1 b) as [r [H1 [H2 [H3 [H4 H5]]]]]; try lra.
        assert (Eb := bracketLoop_acc b ((l1, r1) :: tail') (0 + (l1 - l0) * r0)).
        exists r0. scale r0 r (b - l1). scale R' R (b - l1). scale r0 R (l1 - a).
        repeat split; lra.
      * (* both in this bracket *)
        exists r0. scale r0 R (b - a). repeat split; lra.
Qed.

Lemma calculateBracketTax_nonneg (income : Q) (brackets : Schedule) :
  0 <= calculateBracketTax income brackets.
Proof.
  unfold calculateBracketTax. destruct (income <=? 0).
  - lra.
  - apply Qmax_0_nonneg.
Qed.

(** On a valid schedule the tax never decreases with income, and it grows
    no faster than the largest rate. *)
Lemma calculateBracketTax_slope (brackets : Schedule) (a b : Q) :
  validSchedule brackets -> a <= b ->
  0 <= calculateBracketTax b brackets - calculateBracketTax a brackets
    <= maxRate brackets * (b - a).
Proof.
  intros [Hfirst Hasc] Hab.
  destruct brackets as [| [l0 r0] rest]; [contradiction |].
  assert (HR := maxRate_nonneg ((l0, r0) :: rest)).
  assert (Hbase := bracketLoop_base l0 r0 rest Hasc).
  unfold calculateBracketTax.
  remember (maxRate ((l0, r0) :: rest)) as R eqn:ER.
  scale 0 R (b - a).
  destruct (Qleb_spec a 0) as [Ha | Ha]; destruct (Qleb_spec b 0) as [Hb | Hb];
    try lra.
  - (* a <= 0 < b *)
    destruct (bracketLoop_increment _ Hasc l0 r0 rest eq_refl l0 b)
      as [r [H1 [H2 [H3 [H4 H5]]]]]; try lra.
    rewrite <- ER in H5.
    assert (R * l0 == 0) by (rewrite Hfirst; ring).
    scale 0 R (0 - a).
    split_max 0 (bracketLoop b ((l0, r0) :: rest) 0); split; lra.
  - (* 0 < a <= b *)
    destruct (bracketLoop_increment _ Hasc l0 r0 rest eq_refl a b)
      as [r [H1 [H2 [H3 [H4 H5]]]]]; try lra.
    rewrite <- ER in H5.
    assert (r * l0 == 0) by (rewrite Hfirst; ring).
    destruct (Qlt_le_dec 0 r) as [Hr | Hr].
    + scale 0 r (b - a).
      split_max 0 (bracketLoop b ((l0, r0) :: rest) 0);
        split_max 0 (bracketLoop a ((l0, r0) :: rest) 0); split; lra.
    + scale r 0 a.
      split_max 0 (bracketLoop b ((l0, r0) :: rest) 0);
        split_max 0 (bracketLoop a ((l0, r0) :: rest) 0); split; lra.
Qed.

(** C5: [calculateBracketTax(60000, TAX_BRACKETS_2025.single)] is exactly
    8114: in exact arithmetic, and in the binary64 arithmetic of the
    source. *)
Theorem calculateBracketTax_60000_single :
  calculateBracketTax 60000 TAX_BRACKETS_2025_single == 8114 /\
  Binary64.calculateBracketTax 60000%float Binary64.TAX_BRACKETS_2025_single
    = 8114%float.
Proof.
  split.
  - vm_compute. reflexivity.
  - vm_compute. reflexivity.
Qed.

(** C6: on every valid schedule (first threshold 0, strictly increasing
    thresholds, non-decreasing rates) [calculateBracketTax] never decreases
    as income grows, and it is continuous at every income, the bracket
    boundaries among them: it has no jump. *)
Theorem calculateBracketTax_monotone_continuous (brackets : Schedule) :
  validSchedule brackets ->
  (forall a b, a <= b ->
     calculateBracketTax a brackets <= calculateBracketTax b brackets) /\
  (forall t eps, 0 < eps ->
     exists delta, 0 < delta /\
       forall x, Qabs (x - t) < delta ->
         Qabs (calculateBracketTax x brackets - calculateBracketTax t brackets)
           < eps).
Proof.
  intros Hvalid. split.
  - intros a b Hab.
    destruct (calculateBracketTax_slope brackets a b Hvalid Hab) as [H _]. lra.
  - intros t eps Heps.
    assert (HR := maxRate_nonneg brackets).
    remember (maxRate brackets) as R eqn:ER.
    exists (eps / (R + 1)). split.
    + apply Qlt_shift_div_l; lra.
    + intros x Hx.
      assert (Hd : (eps / (R + 1)) * (R + 1) == eps) by (field; lra).
      apply Qabs_Qlt_condition in Hx. apply Qabs_Qlt_condition.
      destruct (Qlt_le_dec x t) as [Hxt | Hxt].
      * destruct (calculateBracketTax_slope brackets x t Hvalid) as [L U];
          [lra |]. rewrite <- ER in U.
        scale (t - x) (eps / (R + 1)) R.
        scale 0 (eps / (R + 1)) 1. lra.
      * destruct (calculateBracketTax_slope brackets t x Hvalid Hxt) as [L U].
        rewrite <- ER in U.
        scale (x - t) (eps / (R + 1)) R.
        scale 0 (eps / (R + 1)) 1. lra.
Qed.

(* ------------------------------------------------------------------------- *)
(** ** Table lookups *)

Lemma orFallback_total {A : Type} (table : list (string * A)) (s : string)
    (fallback : A) :
  inherited s = false ->
  exists a, orFallback (getProperty table s) fallback = Some a.
Proof.
  intros Hs. unfold getProperty. destruct (ownProperty table s) as [a |].
  - exists a. reflexivity.
  - rewrite Hs. exists fallback. reflexivity.
Qed.

Lemma orFallback_inherited {A : Type} (table : list (string * A)) (s : string)
    (fallback : A) :
  ownProperty table s = None -> inherited s = true ->
  orFallback (getProperty table s) fallback = None.
Proof.
  intros Hown Hs. unfold getProperty. rewrite Hown, Hs. reflexivity.
Qed.

Lemma key_not_inherited (status : FilingStatus) : inherited (key status) = false.
Proof. destruct status; reflexivity. Qed.

(* ------------------------------------------------------------------------- *)
(** ** Capital gains stacker *)

Lemma calculateCapitalGainsTax_nonneg (taxableIncome capitalGains : Q)
    (filingStatus : string) (t : Q) :
  calculateCapitalGainsTax taxableIncome capitalGains filingStatus = Some t ->
  0 <= t.
Proof.
  unfold calculateCapitalGainsTax.
  destruct (capitalGains <=? 0).
  - intros [= <-]. lra.
  - destruct (orFallback _ _) as [brackets |]; [| discriminate].
    intros [= <-]. apply Qmax_0_nonneg.
Qed.

Lemma calculateCapitalGainsTax_total (taxableIncome capitalGains : Q)
    (filingStatus : string) :
  inherited filingStatus = false ->
  exists t,
    calculateCapitalGainsTax taxableIncome capitalGains filingStatus = Some t.
Proof.
  intros Hs. unfold calculateCapitalGainsTax.
  destruct (capitalGains <=? 0).
  - exists 0. reflexivity.
  - destruct (orFallback_total CAPITAL_GAINS_BRACKETS_2025 filingStatus
                CAPITAL_GAINS_BRACKETS_2025_single Hs) as [brackets ->].
    eexists. reflexivity.
Qed.

(** C4: [calculateCapitalGainsTax] returns 0 whenever the gains are not
    positive, whatever the other arguments; a result is never negative, and
    there is one for every filing status; 20000 of gains on top of 40000 of
    ordinary income, filing single, are taxed exactly 1747.50, in exact
    arithmetic and in binary64. *)
Theorem calculateCapitalGainsTax_spec :
  (forall taxableIncome capitalGains filingStatus,
     capitalGains <= 0 ->
     calculateCapitalGainsTax taxableIncome capitalGains filingStatus
       = Some 0) /\
  (forall taxableIncome capitalGains filingStatus t,
     calculateCapitalGainsTax taxableIncome capitalGains filingStatus = Some t ->
     0 <= t) /\
  (forall taxableIncome capitalGains status,
     exists t,
       calculateCapitalGainsTax taxableIncome capitalGains (key status)
         = Some t) /\
  (exists t,
     calculateCapitalGainsTax 40000 20000 "single" = Some t /\ t == 1747.50) /\
  Binary64.calculateCapitalGainsTax_single 40000%float 20000%float
    = 1747.5%float.
Proof.
  split; [| split; [| split; [| split]]].
  - intros taxableIncome capitalGains filingStatus Hle.
    unfold calculateCapitalGainsTax.
    destruct (Qleb_spec capitalGains 0); [reflexivity | contradiction].
  - apply calculateCapitalGainsTax_nonneg.
  - intros taxableIncome capitalGains status.
    apply calculateCapitalGainsTax_total, key_not_inherited.
  - eexists. split; [vm_compute; reflexivity | vm_compute; reflexivity].
  - vm_compute. reflexivity.
Qed.

Lemma calculateCapitalGainsTax_spec_witness :
  -5 <= 0 /\ calculateCapitalGainsTax 40000 (-5) "single" = Some 0.
Proof.
  assert (H : -5 <= 0) by (unfold Qle; simpl; lia).
  split; [exact H |].
  exact (proj1 calculateCapitalGainsTax_spec 40000 (-5) "single" H).
Defined.

(* ------------------------------------------------------------------------- *)
(** ** Self-employment tax *)

Lemma calculateSelfEmploymentTax_total (net wages : Q) (filingStatus : string) :
  inherited filingStatus = false ->
  exists r, calculateSelfEmploymentTax net wages filingStatus = Some r.
Proof.
  intros Hs. unfold calculateSelfEmploymentTax.
  destruct (net <=? 0).
  - eexists. reflexivity.
  - match goal with |- context [orFallback (getProperty ?t _) ?d] =>
      destruct (orFallback_total t filingStatus d Hs) as [threshold ->]
    end.
    eexists. reflexivity.
Qed.

Lemma calculateSelfEmploymentTax_nonneg (net wages : Q) (filingStatus : string)
    (r : SE.t) :
  calculateSelfEmploymentTax net wages filingStatus = Some r ->
  0 <= SE.tax r /\ 0 <= SE.deduction r.
Proof.
  unfold calculateSelfEmploymentTax.
  destruct (Qleb_spec net 0) as [Hnet | Hnet].
  - intros [= <-]. simpl. lra.
  - destruct (orFallback _ _) as [threshold |]; [| discriminate].
    intros [= <-]. simpl.
    set (base := net * 0.9235).
    assert (Hbase : 0 <= base) by (unfold base; lra).
    split_min 176100 wages;
      split_max 0 (176100 - Qmin 176100 wages);
      split_min base (Qmax 0 (176100 - Qmin 176100 wages));
      split_max 0 (threshold - wages);
      split_max 0 (base - Qmax 0 (threshold - wages)); lra.
Qed.

(** C7: [calculateSelfEmploymentTax] returns [{tax: 0, deduction: 0}]
    whenever the net income is not positive; the deduction of every result
    is half its tax, and there is a result for every filing status. *)
Theorem calculateSelfEmploymentTax_spec (net wages : Q) :
  (forall filingStatus,
     net <= 0 ->
     calculateSelfEmploymentTax net wages filingStatus
       = Some {| SE.tax := 0; SE.deduction := 0 |}) /\
  (forall filingStatus r,
     calculateSelfEmploymentTax net wages filingStatus = Some r ->
     SE.deduction r == SE.tax r / 2) /\
  (forall status,
     exists r, calculateSelfEmploymentTax net wages (key status) = Some r).
Proof.
  split; [| split].
  - intros filingStatus Hle. unfold calculateSelfEmploymentTax.
    destruct (Qleb_spec net 0); [reflexivity | contradiction].
  - intros filingStatus r. unfold calculateSelfEmploymentTax.
    destruct (net <=? 0).
    + intros [= <-]. simpl. field.
    + destruct (orFallback _ _) as [threshold |]; [| discriminate].
      intros [= <-]. simpl. field.
  - intros status.
    apply calculateSelfEmploymentTax_total, key_not_inherited.
Qed.

Lemma calculateSelfEmploymentTax_spec_witness :
  -100 <= 0 /\
  calculateSelfEmploymentTax (-100) 50000 "married"
    = Some {| SE.tax := 0; SE.deduction := 0 |}.
Proof.
  assert (H : -100 <= 0) by (unfold Qle; simpl; lia).
  split; [exact H |].
  exact (proj1 (calculateSelfEmploymentTax_spec (-100) 50000) "married" H).
Defined.

(* ------------------------------------------------------------------------- *)
(** ** Net investment income tax *)

Lemma calculateNIIT_total (agi nii : Q) (filingStatus : string) :
  inherited filingStatus = false ->
  exists t, calculateNIIT agi nii filingStatus = Some t.
Proof.
  intros Hs. unfold calculateNIIT.
  match goal with |- context [orFallback (getProperty ?t _) ?d] =>
    destruct (orFallback_total t filingStatus d Hs) as [threshold ->]
  end.
  eexists. reflexivity.
Qed.

Lemma calculateNIIT_key (agi nii : Q) (status : FilingStatus) :
  calculateNIIT agi nii (key status)
  = Some (Qmin (Qmax 0 (agi - NIIT_threshold status)) nii * 0.038).
Proof. destruct status; reflexivity. Qed.

(** What [calculateNIIT] computes: for every filing status, 3.8% of
    [min(max(0, agi - threshold), netInvestmentIncome)], with the threshold
    of that status; the result is not negative when the net investment
    income is not. *)
Lemma calculateNIIT_spec (agi netInvestmentIncome : Q)
    (status : FilingStatus) :
  exists t,
    calculateNIIT agi netInvestmentIncome (key status) = Some t /\
    t == 0.038 * Qmin (Qmax 0 (agi - NIIT_threshold status))
                      netInvestmentIncome /\
    (0 <= netInvestmentIncome -> 0 <= t).
Proof.
  eexists. split; [apply calculateNIIT_key |].
  set (excess := Qmax 0 (agi - NIIT_threshold status)).
  assert (Hex : 0 <= excess) by apply Qmax_0_nonneg.
  split; [ring |]. intros H.
  split_min excess netInvestmentIncome; lra.
Qed.

Lemma calculateNIIT_nonneg (agi nii : Q) (filingStatus : string) (t : Q) :
  calculateNIIT agi nii filingStatus = Some t -> 0 <= nii -> 0 <= t.
Proof.
  unfold calculateNIIT.
  destruct (orFallback _ _) as [threshold |]; [| discriminate].
  intros [= <-] H.
  assert (Hex : 0 <= Qmax 0 (agi - threshold)) by apply Qmax_0_nonneg.
  split_min (Qmax 0 (agi - threshold)) nii; lra.
Qed.

(** C3: the result of [calculateNIIT] is not always greater than or equal
    to 0.  [calculateNIIT(300000, -1000, 'single')] is -38: [Math.max(0, ...)]
    floors the AGI above the threshold only, and [Math.min] returns a
    negative net investment income as it is. *)
Theorem calculateNIIT_negative :
  exists t,
    calculateNIIT 300000 (-1000) "single" = Some t /\ t == -38 /\ ~ 0 <= t.
Proof.
  eexists. split; [reflexivity |]. split.
  - vm_compute. reflexivity.
  - vm_compute. intros H. apply H. reflexivity.
Qed.

(* ------------------------------------------------------------------------- *)
(** ** The pipeline: reading fields *)

Lemma orDefault_nonneg (v : Field) (d : Q) :
  (forall q, v = Amount q -> 0 <= q) -> 0 <= d -> 0 <= parseFloat v || d.
Proof.
  intros Hv Hd. unfold orDefault, orNumber.
  destruct v as [| | q]; simpl; try exact Hd.
  destruct (Qeq_bool q 0); simpl; [exact Hd | apply Hv; reflexivity].
Qed.

Lemma nonnegative_field (form : Form.t) (names : list string) (name : string)
    (d : Q) :
  nonnegative form names -> In name names -> 0 <= d ->
  0 <= parseFloat (field form name) || d.
Proof.
  intros Hall Hin Hd. apply orDefault_nonneg; [| exact Hd].
  unfold nonnegative in Hall. rewrite Forall_forall in Hall.
  apply Hall. exact Hin.
Qed.

Lemma nonnegative_incl (form : Form.t) (names names' : list string) :
  incl names' names -> nonnegative form names -> nonnegative form names'.
Proof.
  unfold nonnegative. rewrite !Forall_forall. intros Hincl H name Hin.
  apply H, Hincl, Hin.
Qed.

(** [0 <= parseFloat (field form name) || d], from a [nonnegative]
    hypothesis of the context. *)
Ltac field_nonneg :=
  match goal with
  | H : nonnegative ?form ?names |- 0 <= parseFloat (field ?form ?name) || _ =>
      apply (nonnegative_field form names name _ H); [simpl; tauto |]
  end.

(* ------------------------------------------------------------------------- *)
(** ** Phase-out *)

Lemma phaseOutLimits_cases (s : string) :
  phaseOutLimits s = (300000, 550000) \/ phaseOutLimits s = (150000, 400000).
Proof. unfold phaseOutLimits. destruct (String.eqb s "married"); auto. Qed.

Lemma getPhaseOutPct_spec (s : string) (income : Q) :
  let limits := phaseOutLimits s in
  0 <= getPhaseOutPct s income <= 1 /\
  (income <= fst limits -> getPhaseOutPct s income == 1) /\
  (snd limits <= income -> getPhaseOutPct s income == 0) /\
  (fst limits < income < snd limits ->
     getPhaseOutPct s income
       == (snd limits - income) / (snd limits - fst limits)).
Proof.
  unfold getPhaseOutPct.
  destruct (phaseOutLimits_cases s) as [-> | ->]; simpl fst; simpl snd;
    cbv zeta; simpl fst; simpl snd.
  - destruct (Qleb_spec income 300000); [| destruct (Qgeb_spec income 550000)].
    + repeat split; intros; try lra; reflexivity.
    + repeat split; intros; try lra; reflexivity.
    + assert (E : 1.0 - (income - 300000) / (550000 - 300000)
                  == (550000 - income) / (550000 - 300000)) by (field; lra).
      assert (E' : (550000 - income) / (550000 - 300000)
                   == (550000 - income) * (1 # 250000))
        by (unfold Qdiv; apply Qmult_comp; [reflexivity | reflexivity]).
      repeat split; intros; try lra.
  - destruct (Qleb_spec income 150000); [| destruct (Qgeb_spec income 400000)].
    + repeat split; intros; try lra; reflexivity.
    + repeat split; intros; try lra; reflexivity.
    + assert (E : 1.0 - (income - 150000) / (400000 - 150000)
                  == (400000 - income) / (400000 - 150000)) by (field; lra).
      assert (E' : (400000 - income) / (400000 - 150000)
                   == (400000 - income) * (1 # 250000))
        by (unfold Qdiv; apply Qmult_comp; [reflexivity | reflexivity]).
      repeat split; intros; try lra.
Qed.

Lemma phaseOutPct_range (form : Form.t) : 0 <= phaseOutPct form <= 1.
Proof.
  unfold phaseOutPct.
  exact (proj1 (getPhaseOutPct_spec (filingStatus form) (magiForPhaseOut form))).
Qed.

(* ------------------------------------------------------------------------- *)
(** ** Opening a run of [calculateTotalTax] *)

(** From [H : calculateTotalTax today form = Some r]: the five values the
    run looked up, and [r] replaced by the record built from them. *)
Ltac open_run H :=
  unfold calculateTotalTax in H; cbv zeta in H;
  match type of H with
  | context [calculateSelfEmploymentTax ?a ?b ?c] =>
      destruct (calculateSelfEmploymentTax a b c) as [?se |] eqn:?Ese;
      [| discriminate H]
  end;
  match type of H with
  | context [orFallback (getProperty STANDARD_DEDUCTIONS_2025 ?s) ?d] =>
      destruct (orFallback (getProperty STANDARD_DEDUCTIONS_2025 s) d)
        as [?standardDeduction |] eqn:?Estd; [| discriminate H]
  end;
  match type of H with
  | context [orFallback (getProperty TAX_BRACKETS_2025 ?s) ?d] =>
      destruct (orFallback (getProperty TAX_BRACKETS_2025 s) d)
        as [?brackets |] eqn:?Ebrackets; [| discriminate H]
  end;
  match type of H with
  | context [calculateCapitalGainsTax ?a ?b ?c] =>
      destruct (calculateCapitalGainsTax a b c) as [?capitalGainsTax |] eqn:?Ecg;
      [| discriminate H]
  end;
  match type of H with
  | context [calculateNIIT ?a ?b ?c] =>
      destruct (calculateNIIT a b c) as [?niit |] eqn:?Eniit;
      [| discriminate H]
  end;
  injection H as <-; cbn [TaxResult.totalIncome TaxResult.totalAdjustments
    TaxResult.agi TaxResult.deduction TaxResult.taxableIncome
    TaxResult.regularTax TaxResult.capitalGainsTax TaxResult.seTax
    TaxResult.totalTaxBeforeCredits TaxResult.totalCredits TaxResult.finalTax
    TaxResult.totalPayments TaxResult.refundOrOwed TaxResult.isRefund] in *.

Lemma calculateTotalTax_total (today : Date) (form : Form.t) :
  inherited (filingStatus form) = false ->
  exists r, calculateTotalTax today form = Some r.
Proof.
  intros Hs. unfold calculateTotalTax. cbv zeta.
  destruct (calculateSelfEmploymentTax_total (scheduleC form)
              (wagesForSET form) (filingStatus form) Hs) as [se ->].
  destruct (orFallback_total STANDARD_DEDUCTIONS_2025 (filingStatus form)
              STANDARD_DEDUCTIONS_2025_single Hs) as [standardDeduction ->].
  destruct (orFallback_total TAX_BRACKETS_2025 (filingStatus form)
              TAX_BRACKETS_2025_single Hs) as [brackets ->].
  match goal with |- context [calculateCapitalGainsTax ?a ?b ?c] =>
    destruct (calculateCapitalGainsTax_total a b c Hs) as [cg ->]
  end.
  match goal with |- context [calculateNIIT ?a ?b ?c] =>
    destruct (calculateNIIT_total a b c Hs) as [niit ->]
  end.
  eexists. reflexivity.
Qed.

(* ------------------------------------------------------------------------- *)
(** ** Phase-out of the new deductions (C1) *)

(** C1, as the code has it: with the law-version toggle on, the tip and
    overtime deductions (capped at 25000 and 12500) are scaled by the
    phase-out factor of the tentative MAGI, total income minus the
    adjustments that are not new deductions; the factor lies in [0,1], is 1
    up to the floor of the filing status (300000 for 'married', else 150000)
    and falls linearly to 0 at the ceiling (550000, else 400000).  The
    auto-loan deduction (capped at 10000) and the senior bonus (6000 from age
    65) enter the adjustments unscaled. *)
Theorem new_deductions_phase_out (today : Date) (form : Form.t) :
  useObbba2025 form = true ->
  let limits := phaseOutLimits (filingStatus form) in
  let magi := totalIncome form - tentativeAdjustments form in
  let pct := getPhaseOutPct (filingStatus form) magi in
  limits = (if String.eqb (filingStatus form) "married"
            then (300000, 550000) else (150000, 400000)) /\
  (0 <= pct <= 1) /\
  (magi <= fst limits -> pct == 1) /\
  (snd limits <= magi -> pct == 0) /\
  (fst limits < magi < snd limits ->
     pct == (snd limits - magi) / (snd limits - fst limits)) /\
  tipsDeduction form
    == Qmin (parseFloat (field form "tipIncome") || 0) 25000 * pct /\
  overtimeDeduction form
    == Qmin (parseFloat (field form "overtimeIncome") || 0) 12500 * pct /\
  autoLoanDeduction form
    == Qmin (parseFloat (field form "autoLoanInterest") || 0) 10000 /\
  seniorBonus today form
    == (if atLeast65 (calculateAge today (Form.birthDate form))
        then 6000 else 0) /\
  forall r, calculateTotalTax today form = Some r ->
    exists se,
      calculateSelfEmploymentTax (scheduleC form) (wagesForSET form)
                                 (filingStatus form) = Some se /\
      TaxResult.totalAdjustments r
        == otherAdjustments form (SE.deduction se)
           + tipsDeduction form + overtimeDeduction form
           + autoLoanDeduction form + seniorBonus today form.
Proof.
  intros Hon limits magi pct.
  destruct (getPhaseOutPct_spec (filingStatus form) magi) as [H1 [H2 [H3 H4]]].
  split; [reflexivity |].
  split; [exact H1 |]. split; [exact H2 |]. split; [exact H3 |].
  split; [exact H4 |].
  split; [unfold tipsDeduction; rewrite Hon; reflexivity |].
  split; [unfold overtimeDeduction; rewrite Hon; reflexivity |].
  split; [unfold autoLoanDeduction; rewrite Hon; reflexivity |].
  split; [unfold seniorBonus; rewrite Hon; reflexivity |].
  intros r Hr. open_run Hr. exists se. split; [reflexivity |].
  unfold totalAdjustments, otherAdjustments. reflexivity.
Qed.

Lemma new_deductions_phase_out_witness :
  useObbba2025 highEarnerWithCarLoan = true /\
  autoLoanDeduction highEarnerWithCarLoan
    == Qmin (parseFloat (field highEarnerWithCarLoan "autoLoanInterest") || 0)
            10000.
Proof.
  assert (H : useObbba2025 highEarnerWithCarLoan = true) by reflexivity.
  split; [exact H |].
  exact (proj1 (proj2 (proj2 (proj2 (proj2 (proj2 (proj2 (proj2
    (new_deductions_phase_out june30 highEarnerWithCarLoan H))))))))).
Defined.

(** C1 as stated fails: at 500000 of wages the phase-out factor is 0, yet
    the auto-loan deduction of 5000 is taken in full, and so is the senior
    bonus of a filer aged 65. *)
Lemma auto_loan_not_phased_out :
  useObbba2025 highEarnerWithCarLoan = true /\
  phaseOutPct highEarnerWithCarLoan == 0 /\
  autoLoanDeduction highEarnerWithCarLoan == 5000 /\
  ~ autoLoanDeduction highEarnerWithCarLoan
      == Qmin (parseFloat (field highEarnerWithCarLoan "autoLoanInterest") || 0)
              10000 * phaseOutPct highEarnerWithCarLoan /\
  exists r,
    calculateTotalTax june30 highEarnerWithCarLoan = Some r /\
    TaxResult.totalAdjustments r == 5000.
Proof.
  split; [reflexivity |].
  split; [vm_compute; reflexivity |].
  split; [vm_compute; reflexivity |].
  split; [vm_compute; discriminate |].
  eexists. split; [vm_compute; reflexivity | vm_compute; reflexivity].
Qed.

(* ------------------------------------------------------------------------- *)
(** ** Which fields of the Tax Result are floored (C2) *)

Lemma standardDeduction_positive (s : string) (d : Q) :
  orFallback (getProperty STANDARD_DEDUCTIONS_2025 s)
             STANDARD_DEDUCTIONS_2025_single = Some d ->
  0 < d.
Proof.
  unfold getProperty, STANDARD_DEDUCTIONS_2025, STANDARD_DEDUCTIONS_2025_single.
  simpl ownProperty.
  repeat match goal with
         | |- context [String.eqb s ?k] => destruct (String.eqb s k)
         end;
    simpl; try (intros [= <-]; reflexivity).
  destruct (inherited s); simpl; [discriminate | intros [= <-]; reflexivity].
Qed.

Lemma tipsDeduction_nonneg (form : Form.t) :
  nonnegative form newDeductionFields -> 0 <= tipsDeduction form.
Proof.
  intros H. unfold tipsDeduction. destruct (useObbba2025 form); [| lra].
  destruct (phaseOutPct_range form) as [Hp _].
  apply Qmult_le_0_compat; [| exact Hp].
  assert (0 <= parseFloat (field form "tipIncome") || 0)
    by (field_nonneg; lra).
  split_min (parseFloat (field form "tipIncome") || 0) 25000; lra.
Qed.

Lemma overtimeDeduction_nonneg (form : Form.t) :
  nonnegative form newDeductionFields -> 0 <= overtimeDeduction form.
Proof.
  intros H. unfold overtimeDeduction. destruct (useObbba2025 form); [| lra].
  destruct (phaseOutPct_range form) as [Hp _].
  apply Qmult_le_0_compat; [| exact Hp].
  assert (0 <= parseFloat (field form "overtimeIncome") || 0)
    by (field_nonneg; lra).
  split_min (parseFloat (field form "overtimeIncome") || 0) 12500; lra.
Qed.

Lemma autoLoanDeduction_nonneg (form : Form.t) :
  nonnegative form newDeductionFields -> 0 <= autoLoanDeduction form.
Proof.
  intros H. unfold autoLoanDeduction. destruct (useObbba2025 form); [| lra].
  assert (0 <= parseFloat (field form "autoLoanInterest") || 0)
    by (field_nonneg; lra).
  split_min (parseFloat (field form "autoLoanInterest") || 0) 10000; lra.
Qed.

Lemma seniorBonus_nonneg (today : Date) (form : Form.t) :
  0 <= seniorBonus today form.
Proof. unfold seniorBonus. destruct (_ && _)%bool; lra. Qed.

Lemma totalAdjustments_nonneg (today : Date) (form : Form.t) (sed : Q) :
  nonnegative form adjustmentFields -> 0 <= sed ->
  0 <= totalAdjustments today form sed.
Proof.
  intros H Hsed.
  assert (Hnew : nonnegative form newDeductionFields).
  { revert H. apply nonnegative_incl. unfold adjustmentFields.
    apply incl_appr, incl_refl. }
  assert (H1 := tipsDeduction_nonneg form Hnew).
  assert (H2 := overtimeDeduction_nonneg form Hnew).
  assert (H3 := autoLoanDeduction_nonneg form Hnew).
  assert (H4 := seniorBonus_nonneg today form).
  unfold totalAdjustments.
  assert (0 <= parseFloat (field form "educatorExpenses") || 0)
    by (field_nonneg; lra).
  assert (0 <= parseFloat (field form "hsaDeduction") || 0)
    by (field_nonneg; lra).
  assert (0 <= parseFloat (field form "selfEmployedSEPSimple") || 0)
    by (field_nonneg; lra).
  assert (0 <= parseFloat (field form "selfEmployedHealthInsurance") || 0)
    by (field_nonneg; lra).
  assert (0 <= parseFloat (field form "penaltyEarlyWithdrawal") || 0)
    by (field_nonneg; lra).
  assert (0 <= parseFloat (field form "alimonyPaid") || 0)
    by (field_nonneg; lra).
  assert (0 <= parseFloat (field form "iraDeduction") || 0)
    by (field_nonneg; lra).
  assert (0 <= parseFloat (field form "studentLoanInterest") || 0)
    by (field_nonneg; lra).
  split_max (parseFloat (field form "selfEmploymentTaxDeduction") || 0) sed;
    lra.
Qed.

Lemma getSaltCap_positive (s : string) (form : Form.t) : 0 < getSaltCap s form.
Proof.
  unfold getSaltCap.
  destruct (getPolicyFlags form), (String.eqb s "marriedSeparate"); reflexivity.
Qed.

Lemma itemizedTotal_nonneg (form : Form.t) (agi : Q) :
  nonnegative form itemizedFields -> 0 <= itemizedTotal form agi.
Proof.
  intros H. unfold itemizedTotal, medicalDeductible, actualSalt, saltCap.
  assert (Hcap := getSaltCap_positive (filingStatus form) form).
  assert (0 <= parseFloat (field form "stateLocalTaxes") || 0)
    by (field_nonneg; lra).
  assert (0 <= parseFloat (field form "realEstateTaxes") || 0)
    by (field_nonneg; lra).
  assert (0 <= parseFloat (field form "mortgageInterest") || 0)
    by (field_nonneg; lra).
  assert (0 <= parseFloat (field form "charityCash") || 0)
    by (field_nonneg; lra).
  assert (0 <= parseFloat (field form "charityNonCash") || 0)
    by (field_nonneg; lra).
  assert (0 <= parseFloat (field form "casualtyLosses") || 0)
    by (field_nonneg; lra).
  assert (0 <= parseFloat (field form "otherItemized") || 0)
    by (field_nonneg; lra).
  match goal with |- context [Qmax 0 ?x] =>
    assert (0 <= Qmax 0 x) by apply Qmax_0_nonneg
  end.
  match goal with |- context [Qmin ?x ?y] => split_min x y end; lra.
Qed.

Lemma count_nonneg (n : nat) : 0 <= inject_Z (Z.of_nat n).
Proof. unfold Qle. simpl. lia. Qed.

Lemma totalCredits_nonneg (form : Form.t) :
  nonnegative form creditFields -> 0 <= totalCredits form.
Proof.
  intros H. unfold totalCredits.
  assert (0 <= estimatedChildCredit form).
  { unfold estimatedChildCredit, qualifyingChildren.
    apply Qmult_le_0_compat; [apply count_nonneg | lra]. }
  assert (0 <= estimatedOtherDependentsCredit form).
  { unfold estimatedOtherDependentsCredit, otherDependents.
    apply Qmult_le_0_compat; [apply count_nonneg | lra]. }
  assert (0 <= parseFloat (field form "childTaxCredit")
               || estimatedChildCredit form) by (field_nonneg; lra).
  assert (0 <= parseFloat (field form "creditOtherDependents")
               || estimatedOtherDependentsCredit form) by (field_nonneg; lra).
  assert (0 <= parseFloat (field form "educationCredits") || 0)
    by (field_nonneg; lra).
  assert (0 <= parseFloat (field form "retirementSaversCredit") || 0)
    by (field_nonneg; lra).
  assert (0 <= parseFloat (field form "childCareCredit") || 0)
    by (field_nonneg; lra).
  assert (0 <= parseFloat (field form "earnedIncomeCredit") || 0)
    by (field_nonneg; lra).
  assert (0 <= parseFloat (field form "otherCredits") || 0)
    by (field_nonneg; lra).
  lra.
Qed.

Lemma totalPayments_nonneg (form : Form.t) :
  nonnegative form paymentFields -> 0 <= totalPayments form.
Proof.
  intros H.
  unfold totalPayments, totalWithholding, estimatedPayments, priorYearApplied.
  assert (0 <= parseFloat (field form "totalWithholding") || 0)
    by (field_nonneg; lra).
  assert (0 <= parseFloat (field form "estimatedTaxPayments") || 0)
    by (field_nonneg; lra).
  assert (0 <= parseFloat (field form "amountAppliedFromPriorYear") || 0)
    by (field_nonneg; lra).
  lra.
Qed.

(** C2, as the code has it: every Tax Result has a non-negative
    taxableIncome, regularTax, capitalGainsTax and seTax, the fields the code
    floors; its totalTaxBeforeCredits is non-negative when the net investment
    income is, and its totalAdjustments, deduction, totalCredits and
    totalPayments are non-negative when the amounts they add up are.
    totalIncome and agi are plain sums and have no floor.  There is a Tax
    Result unless the filing status names an inherited member. *)
Theorem calculateTotalTax_floors (today : Date) (form : Form.t) :
  (forall r,
     calculateTotalTax today form = Some r ->
     0 <= TaxResult.taxableIncome r /\
     0 <= TaxResult.regularTax r /\
     0 <= TaxResult.capitalGainsTax r /\
     0 <= TaxResult.seTax r /\
     (0 <= investmentIncome form -> 0 <= TaxResult.totalTaxBeforeCredits r) /\
     (nonnegative form adjustmentFields -> 0 <= TaxResult.totalAdjustments r) /\
     (nonnegative form itemizedFields -> 0 <= TaxResult.deduction r) /\
     (nonnegative form creditFields -> 0 <= TaxResult.totalCredits r) /\
     (nonnegative form paymentFields -> 0 <= TaxResult.totalPayments r)) /\
  (inherited (filingStatus form) = false ->
   exists r, calculateTotalTax today form = Some r).
Proof.
  split; [| apply calculateTotalTax_total].
  intros r Hr. open_run Hr.
  destruct (calculateSelfEmploymentTax_nonneg _ _ _ _ Ese) as [Htax Hded].
  assert (Hcg := calculateCapitalGainsTax_nonneg _ _ _ _ Ecg).
  split; [apply Qmax_0_nonneg |].
  split; [apply calculateBracketTax_nonneg |].
  split; [exact Hcg |].
  split; [exact Htax |].
  split.
  { intros Hnii.
    assert (Hniit := calculateNIIT_nonneg _ _ _ _ Eniit Hnii).
    match goal with
    | |- 0 <= calculateBracketTax ?i ?b + _ + _ + _ =>
        assert (Hreg := calculateBracketTax_nonneg i b)
    end.
    lra. }
  split; [intros H; apply totalAdjustments_nonneg; assumption |].
  split.
  - intros H. destruct (itemizes form).
    + apply itemizedTotal_nonneg, H.
    + apply Qlt_le_weak. exact (standardDeduction_positive _ _ Estd).
  - split; [apply totalCredits_nonneg | apply totalPayments_nonneg].
Qed.

Lemma calculateTotalTax_floors_witness :
  inherited (filingStatus capitalLossOnly) = false /\
  exists r,
    calculateTotalTax june30 capitalLossOnly = Some r /\
    0 <= TaxResult.taxableIncome r.
Proof.
  assert (H : inherited (filingStatus capitalLossOnly) = false) by reflexivity.
  split; [exact H |].
  destruct (calculateTotalTax_floors june30 capitalLossOnly) as [Hall Hex].
  destruct (Hex H) as [r Hr].
  exists r. split; [exact Hr | exact (proj1 (Hall r Hr))].
Defined.

(** C2 as stated fails: a capital loss alone gives a negative totalIncome
    and a negative agi. *)
Lemma negative_totalIncome_and_agi :
  exists r,
    calculateTotalTax june30 capitalLossOnly = Some r /\
    TaxResult.totalIncome r == -3000 /\
    TaxResult.agi r == -3000 /\
    ~ 0 <= TaxResult.totalIncome r /\
    ~ 0 <= TaxResult.agi r.
Proof.
  eexists. split; [vm_compute; reflexivity |].
  split; [vm_compute; reflexivity |].
  split; [vm_compute; reflexivity |].
  split; vm_compute; intros H; apply H; reflexivity.
Qed.

(** The negative result of [calculateNIIT] in a run.  The net investment
    income of [calculateTotalTax] holds the Schedule E net income, so a
    rental loss is taxed at minus 3.8%: wages of 300000 with a rental loss of
    50000 have the AGI of wages of 250000 alone and a final tax lower by
    1900, and a rental loss that leaves an AGI of 10000 gives a
    totalTaxBeforeCredits of -11020. *)
Lemma rental_loss_lowers_tax :
  (exists r r',
     calculateTotalTax june30 rentalLoss = Some r /\
     calculateTotalTax june30 wagesOnly = Some r' /\
     TaxResult.agi r == 250000 /\
     TaxResult.agi r' == 250000 /\
     TaxResult.regularTax r == TaxResult.regularTax r' /\
     TaxResult.finalTax r == 50139 /\
     TaxResult.finalTax r' == 52039) /\
  (exists r,
     calculateTotalTax june30 largeRentalLoss = Some r /\
     TaxResult.agi r == 10000 /\
     TaxResult.totalTaxBeforeCredits r == -11020).
Proof.
  split.
  - eexists. eexists.
    split; [vm_compute; reflexivity |].
    split; [vm_compute; reflexivity |].
    repeat split; vm_compute; reflexivity.
  - eexists. split; [vm_compute; reflexivity |].
    split; vm_compute; reflexivity.
Qed.

(* ------------------------------------------------------------------------- *)
(** ** The law-version toggle and the deduction (C8) *)

(** Setting the toggle changes no other field of the form. *)
Lemma toggle_filingStatus (b : option bool) (form : Form.t) :
  filingStatus (withUseObbba2025 b form) = filingStatus form.
Proof. reflexivity. Qed.

Lemma toggle_scheduleC (b : option bool) (form : Form.t) :
  scheduleC (withUseObbba2025 b form) = scheduleC form.
Proof. reflexivity. Qed.

Lemma toggle_wagesForSET (b : option bool) (form : Form.t) :
  wagesForSET (withUseObbba2025 b form) = wagesForSET form.
Proof. reflexivity. Qed.

Lemma toggle_totalIncome (b : option bool) (form : Form.t) :
  totalIncome (withUseObbba2025 b form) = totalIncome form.
Proof. reflexivity. Qed.

Lemma toggle_itemizes (b : option bool) (form : Form.t) :
  itemizes (withUseObbba2025 b form) = itemizes form.
Proof. reflexivity. Qed.

Lemma toggle_field (b : option bool) (form : Form.t) (name : string) :
  field (withUseObbba2025 b form) name = field form name.
Proof. reflexivity. Qed.

Lemma toggle_nonnegative (b : option bool) (form : Form.t)
    (names : list string) :
  nonnegative form names -> nonnegative (withUseObbba2025 b form) names.
Proof. intros H. exact H. Qed.

(** With the toggle off the four new deductions are 0. *)
Lemma totalAdjustments_off (today : Date) (form : Form.t) (sed : Q) :
  totalAdjustments today (withUseObbba2025 (Some false) form) sed
  == otherAdjustments form sed.
Proof.
  unfold totalAdjustments, otherAdjustments, tipsDeduction, overtimeDeduction,
    autoLoanDeduction, seniorBonus.
  rewrite !toggle_field.
  change (useObbba2025 (withUseObbba2025 (Some false) form)) with false.
  simpl andb. cbv iota. lra.
Qed.

Lemma totalAdjustments_on (today : Date) (form : Form.t) (sed : Q) :
  nonnegative form newDeductionFields ->
  otherAdjustments form sed
  <= totalAdjustments today (withUseObbba2025 (Some true) form) sed.
Proof.
  intros H.
  apply (toggle_nonnegative (Some true)) in H.
  assert (H1 := tipsDeduction_nonneg _ H).
  assert (H2 := overtimeDeduction_nonneg _ H).
  assert (H3 := autoLoanDeduction_nonneg _ H).
  assert (H4 := seniorBonus_nonneg today (withUseObbba2025 (Some true) form)).
  unfold totalAdjustments, otherAdjustments. rewrite !toggle_field. lra.
Qed.

(** The SALT part of the deduction under both settings: capped at 40000
    (20000 married filing separately) when on, at 10000 (5000) when off. *)
Lemma actualSalt_toggle (form : Form.t) :
  let on := actualSalt (withUseObbba2025 (Some true) form) in
  let off := actualSalt (withUseObbba2025 (Some false) form) in
  let capOff := getSaltCap (filingStatus form)
                           (withUseObbba2025 (Some false) form) in
  (capOff == 10000 \/ capOff == 5000) /\
  off <= on /\ (capOff < saltPaid form -> off < on).
Proof.
  unfold actualSalt, saltCap, getSaltCap, saltPaid. cbv zeta.
  rewrite !toggle_field, !toggle_filingStatus.
  change (getPolicyFlags (withUseObbba2025 (Some true) form)) with true.
  change (getPolicyFlags (withUseObbba2025 (Some false) form)) with false.
  cbv iota.
  set (paid := (parseFloat (field form "stateLocalTaxes") || 0)
               + (parseFloat (field form "realEstateTaxes") || 0)).
  destruct (String.eqb (filingStatus form) "marriedSeparate").
  - split; [right; reflexivity |].
    split_min paid 20000; split_min paid 5000; split; intros; lra.
  - split; [left; reflexivity |].
    split_min paid 40000; split_min paid 10000; split; intros; lra.
Qed.

Lemma medicalDeductible_antitone (form : Form.t) (agi agi' : Q) :
  agi <= agi' -> medicalDeductible form agi' <= medicalDeductible form agi.
Proof.
  intros H. unfold medicalDeductible.
  set (m := parseFloat (field form "medicalExpenses") || 0).
  split_max 0 (m - agi' * 0.075); split_max 0 (m - agi * 0.075); lra.
Qed.

(** C8, as the code has it: take the Tax Result of a form with the toggle
    on and of the same form with the toggle off.  Under the standard
    deduction the two deductions are equal.  For a form that itemizes, with
    no negative tip, overtime or auto-loan amount, the deduction with the
    toggle on is at least the one with it off, and strictly larger when the
    state and local taxes paid exceed the cap that applies with the toggle
    off (10000, or 5000 married filing separately).  Both results exist
    unless the filing status names an inherited member. *)
Theorem salt_cap_gating (today : Date) (form : Form.t) :
  (forall on off,
     calculateTotalTax today (withUseObbba2025 (Some true) form) = Some on ->
     calculateTotalTax today (withUseObbba2025 (Some false) form) = Some off ->
     (itemizes form = false ->
        TaxResult.deduction on == TaxResult.deduction off) /\
     (itemizes form = true -> nonnegative form newDeductionFields ->
        TaxResult.deduction off <= TaxResult.deduction on /\
        (getSaltCap (filingStatus form) (withUseObbba2025 (Some false) form)
           < saltPaid form ->
         TaxResult.deduction off < TaxResult.deduction on))) /\
  (inherited (filingStatus form) = false ->
   exists on off,
     calculateTotalTax today (withUseObbba2025 (Some true) form) = Some on /\
     calculateTotalTax today (withUseObbba2025 (Some false) form) = Some off).
Proof.
  split.
  - intros on off Hon Hoff.
    open_run Hon. open_run Hoff.
    rewrite !toggle_itemizes, !toggle_totalIncome.
    rewrite toggle_scheduleC, toggle_wagesForSET, toggle_filingStatus
      in Ese, Ese0.
    rewrite toggle_filingStatus in Estd, Estd0.
    assert (Ese' : se0 = se) by congruence. subst se0.
    assert (Estd' : standardDeduction0 = standardDeduction) by congruence.
    subst standardDeduction0.
    split.
    + intros ->. reflexivity.
    + intros -> Hnew.
      destruct (actualSalt_toggle form) as [_ [Hsalt Hstrict]]. cbv zeta in *.
      assert (Hoff := totalAdjustments_off today form (SE.deduction se)).
      assert (Hon := totalAdjustments_on today form (SE.deduction se) Hnew).
      set (agiOn := totalIncome form
                    - totalAdjustments today
                        (withUseObbba2025 (Some true) form)
                        (SE.deduction se)) in *.
      set (agiOff := totalIncome form
                     - totalAdjustments today
                         (withUseObbba2025 (Some false) form)
                         (SE.deduction se)) in *.
      assert (Hagi : agiOn <= agiOff) by (unfold agiOn, agiOff; lra).
      assert (Hmed := medicalDeductible_antitone form agiOn agiOff Hagi).
      unfold itemizedTotal.
      change (medicalDeductible (withUseObbba2025 (Some true) form) agiOn)
        with (medicalDeductible form agiOn).
      change (medicalDeductible (withUseObbba2025 (Some false) form) agiOff)
        with (medicalDeductible form agiOff).
      rewrite !toggle_field.
      split; [lra | intros Hcap; specialize (Hstrict Hcap); lra].
  - intros Hs.
    destruct (calculateTotalTax_total today
                (withUseObbba2025 (Some true) form)) as [on Hon];
      [exact Hs |].
    destruct (calculateTotalTax_total today
                (withUseObbba2025 (Some false) form)) as [off Hoff];
      [exact Hs |].
    exists on, off. split; assumption.
Qed.

Lemma salt_cap_gating_witness :
  inherited (filingStatus saltItemizer) = false /\
  exists on off,
    calculateTotalTax june30 (withUseObbba2025 (Some true) saltItemizer)
      = Some on /\
    calculateTotalTax june30 (withUseObbba2025 (Some false) saltItemizer)
      = Some off /\
    TaxResult.deduction off < TaxResult.deduction on.
Proof.
  assert (H : inherited (filingStatus saltItemizer) = false) by reflexivity.
  split; [exact H |].
  destruct (salt_cap_gating june30 saltItemizer) as [Hall Hex].
  destruct (Hex H) as [on [off [Hon Hoff]]].
  exists on, off. split; [exact Hon |]. split; [exact Hoff |].
  apply (Hall on off Hon Hoff).
  - reflexivity.
  - repeat constructor; intros q; vm_compute; discriminate.
  - vm_compute. reflexivity.
Defined.

(** C8 as stated fails: on the form of the repository's SALT test, taking
    the standard deduction instead, the deduction is 15700 with the toggle on
    and off. *)
Lemma standard_deduction_ignores_toggle :
  exists on off,
    calculateTotalTax june30 (withUseObbba2025 (Some true) saltStandard)
      = Some on /\
    calculateTotalTax june30 (withUseObbba2025 (Some false) saltStandard)
      = Some off /\
    TaxResult.deduction on == 15700 /\
    TaxResult.deduction off == 15700 /\
    ~ TaxResult.deduction off < TaxResult.deduction on.
Proof.
  eexists. eexists.
  split; [vm_compute; reflexivity |].
  split; [vm_compute; reflexivity |].
  split; [vm_compute; reflexivity |].
  split; [vm_compute; reflexivity |].
  vm_compute. discriminate.
Qed.

(* ------------------------------------------------------------------------- *)
(** ** Filing statuses outside the tables (C10) *)

(** [TAX_BRACKETS_2025.single] and its siblings are the tables' entries. *)
Lemma single_entries :
  getProperty TAX_BRACKETS_2025 "single" = Own TAX_BRACKETS_2025_single /\
  getProperty STANDARD_DEDUCTIONS_2025 "single"
    = Own STANDARD_DEDUCTIONS_2025_single /\
  getProperty CAPITAL_GAINS_BRACKETS_2025 "single"
    = Own CAPITAL_GAINS_BRACKETS_2025_single.
Proof. repeat split. Qed.

Lemma unlisted_keys (s : string) :
  listed s = false ->
  String.eqb s "single" = false /\ String.eqb s "married" = false /\
  String.eqb s "marriedSeparate" = false /\ String.eqb s "head" = false /\
  String.eqb s "widow" = false.
Proof.
  unfold listed. simpl existsb. intros H.
  repeat (apply orb_false_iff in H; destruct H as [? H]). auto.
Qed.

Lemma singleLike_eqb (s : string) :
  singleLike s ->
  String.eqb s "marriedSeparate" = false /\ String.eqb s "married" = false.
Proof.
  intros [-> | [Hl _]]; [split; reflexivity |].
  destruct (unlisted_keys _ Hl) as [_ [E2 [E3 _]]]. split; assumption.
Qed.

(** A table keyed by the five statuses, with the entry of ['single'] as the
    fallback, reads the same at a single-like status and at ['single']. *)
Ltac single_like_lookup H :=
  destruct H as [-> | [Hl Hi]]; [reflexivity |];
  destruct (unlisted_keys _ Hl) as [E1 [E2 [E3 [E4 E5]]]];
  unfold getProperty; simpl ownProperty;
  rewrite ?E1, ?E2, ?E3, ?E4, ?E5, ?Hi; reflexivity.

Lemma singleLike_standardDeduction (s : string) :
  singleLike s ->
  orFallback (getProperty STANDARD_DEDUCTIONS_2025 s)
             STANDARD_DEDUCTIONS_2025_single
  = orFallback (getProperty STANDARD_DEDUCTIONS_2025 "single")
               STANDARD_DEDUCTIONS_2025_single.
Proof. intros H. single_like_lookup H. Qed.

Lemma singleLike_brackets (s : string) :
  singleLike s ->
  orFallback (getProperty TAX_BRACKETS_2025 s) TAX_BRACKETS_2025_single
  = orFallback (getProperty TAX_BRACKETS_2025 "single")
               TAX_BRACKETS_2025_single.
Proof. intros H. single_like_lookup H. Qed.

Lemma singleLike_capitalGains (s : string) (a b : Q) :
  singleLike s ->
  calculateCapitalGainsTax a b s = calculateCapitalGainsTax a b "single".
Proof.
  intros H. unfold calculateCapitalGainsTax.
  destruct (b <=? 0); [reflexivity |].
  replace (orFallback (getProperty CAPITAL_GAINS_BRACKETS_2025 s)
                      CAPITAL_GAINS_BRACKETS_2025_single)
    with (orFallback (getProperty CAPITAL_GAINS_BRACKETS_2025 "single")
                     CAPITAL_GAINS_BRACKETS_2025_single);
    [reflexivity |].
  symmetry. single_like_lookup H.
Qed.

Lemma singleLike_selfEmployment (s : string) (a b : Q) :
  singleLike s ->
  calculateSelfEmploymentTax a b s = calculateSelfEmploymentTax a b "single".
Proof.
  intros H. unfold calculateSelfEmploymentTax.
  destruct (a <=? 0); [reflexivity |]. cbv zeta.
  match goal with
  | |- context [orFallback (getProperty ?t s) ?d] =>
      replace (orFallback (getProperty t s) d)
        with (orFallback (getProperty t "single") d);
      [reflexivity | symmetry; single_like_lookup H]
  end.
Qed.

Lemma singleLike_NIIT (s : string) (a b : Q) :
  singleLike s -> calculateNIIT a b s = calculateNIIT a b "single".
Proof.
  intros H. unfold calculateNIIT. cbv zeta.
  match goal with
  | |- context [orFallback (getProperty ?t s) ?d] =>
      replace (orFallback (getProperty t s) d)
        with (orFallback (getProperty t "single") d);
      [reflexivity | symmetry; single_like_lookup H]
  end.
Qed.

Section AsSingle.

Variables (today : Date) (form : Form.t).
Hypothesis Hs : singleLike (filingStatus form).

Local Notation "'form1'" := (withFilingStatus (Some "single") form).

Lemma asSingle_totalIncome : totalIncome form1 = totalIncome form.
Proof.
  destruct (singleLike_eqb _ Hs) as [E _].
  unfold totalIncome, cappedCapitalForAGI, capLossLimit.
  change (filingStatus form1) with "single". rewrite E. reflexivity.
Qed.

Lemma asSingle_phaseOutPct : phaseOutPct form1 = phaseOutPct form.
Proof.
  destruct (singleLike_eqb _ Hs) as [_ E].
  unfold phaseOutPct, magiForPhaseOut, tentativeTotalIncome.
  rewrite asSingle_totalIncome.
  unfold getPhaseOutPct, phaseOutLimits.
  change (filingStatus form1) with "single". rewrite E. reflexivity.
Qed.

Lemma asSingle_totalAdjustments (sed : Q) :
  totalAdjustments today form1 sed = totalAdjustments today form sed.
Proof.
  unfold totalAdjustments, tipsDeduction, overtimeDeduction.
  rewrite asSingle_phaseOutPct. reflexivity.
Qed.

Lemma asSingle_itemizedTotal (agi : Q) :
  itemizedTotal form1 agi = itemizedTotal form agi.
Proof.
  destruct (singleLike_eqb _ Hs) as [E _].
  unfold itemizedTotal, actualSalt, saltCap, getSaltCap.
  change (filingStatus form1) with "single". rewrite E. reflexivity.
Qed.

(** One [let] of both sides, once the two bound values are the same. *)
Lemma let_intro {A B : Type} (v : A) (f g : A -> B) :
  (forall x, f x = g x) -> f v = g v.
Proof. intros H. apply H. Qed.

Ltac same_let :=
  lazymatch goal with
  | |- (let x := ?v in @?f x) = (let y := ?v in @?g y) =>
      apply (let_intro v f g); intro; cbv beta
  end.

Ltac same_bind :=
  lazymatch goal with
  | |- match ?e with Some _ => _ | None => None end
       = match ?e with Some _ => _ | None => None end =>
      destruct e; [| reflexivity]
  end.

(** A single-like status is treated as ['single'] by every step of the
    pipeline. *)
Lemma asSingle_calculateTotalTax :
  calculateTotalTax today form = calculateTotalTax today form1.
Proof.
  cbv delta [calculateTotalTax]. cbv beta.
  lazymatch goal with
  | |- (let x := ?v in @?f x) = (let y := ?w in @?g y) =>
      change (f v = g w); cbv beta
  end.
  change (filingStatus form1) with "single".
  rewrite asSingle_totalIncome.
  change (wagesForSET form1) with (wagesForSET form).
  change (scheduleC form1) with (scheduleC form).
  do 2 same_let.
  rewrite (singleLike_selfEmployment _ _ _ Hs). same_bind.
  same_let. rewrite asSingle_totalAdjustments. do 2 same_let.
  rewrite (singleLike_standardDeduction _ Hs). same_bind.
  rewrite asSingle_itemizedTotal. same_let.
  change (itemizes form1) with (itemizes form). same_let.
  change (qbiDeduction form1) with (qbiDeduction form). do 2 same_let.
  change (totalQualifiedIncome form1) with (totalQualifiedIncome form).
  do 2 same_let.
  rewrite (singleLike_brackets _ Hs). same_bind. same_let.
  rewrite (singleLike_capitalGains _ _ _ Hs). same_bind.
  cbv beta iota. same_let.
  change (investmentIncome form1) with (investmentIncome form).
  rewrite (singleLike_NIIT _ _ _ Hs). same_bind.
  reflexivity.
Qed.

End AsSingle.

Lemma unlisted_status_as_single (today : Date) (form : Form.t) :
  listed (filingStatus form) = false ->
  inherited (filingStatus form) = false ->
  calculateTotalTax today form
  = calculateTotalTax today (withFilingStatus (Some "single") form).
Proof.
  intros Hl Hi. apply asSingle_calculateTotalTax. right. split; assumption.
Qed.

Lemma absent_status_as_single (today : Date) (form : Form.t) :
  Form.filingStatus form = None \/ Form.filingStatus form = Some EmptyString ->
  calculateTotalTax today form
  = calculateTotalTax today (withFilingStatus (Some "single") form).
Proof.
  intros H. apply asSingle_calculateTotalTax. left.
  unfold filingStatus. destruct H as [-> | ->]; reflexivity.
Qed.

(** A status that names an inherited member gives no Tax Result. *)
Lemma inherited_status_no_result (today : Date) (form : Form.t) :
  inherited (filingStatus form) = true ->
  calculateTotalTax today form = None.
Proof.
  intros Hinh.
  assert (Hstd : orFallback (getProperty STANDARD_DEDUCTIONS_2025
                                         (filingStatus form))
                            STANDARD_DEDUCTIONS_2025_single = None).
  { apply orFallback_inherited; [| exact Hinh].
    unfold inherited, Object_prototype in Hinh. simpl existsb in Hinh.
    simpl ownProperty.
    repeat match goal with
           | |- context [String.eqb (filingStatus form) ?k] =>
               destruct (String.eqb_spec (filingStatus form) k) as [E | _];
               [rewrite E in Hinh; discriminate Hinh |]
           end.
    reflexivity. }
  unfold calculateTotalTax. cbv zeta.
  destruct (calculateSelfEmploymentTax _ _ _); [| reflexivity].
  rewrite Hstd. reflexivity.
Qed.

(** C10 at [{ filingStatus: 'constructor', totalWages: 50000 }]: the status
    is a string outside the five keys, the run gives no Tax Result, and the
    same form with status ['single'] has one, with a regular tax of
    3877.50. *)
Theorem constructor_status_no_result :
  listed (filingStatus constructorStatus) = false /\
  calculateTotalTax june30 constructorStatus = None /\
  exists r,
    calculateTotalTax june30 (withFilingStatus (Some "single") constructorStatus)
      = Some r /\
    TaxResult.taxableIncome r == 34300 /\
    TaxResult.regularTax r == 3877.50.
Proof.
  split; [reflexivity |].
  split; [apply inherited_status_no_result; reflexivity |].
  eexists. split; [vm_compute; reflexivity |].
  split; vm_compute; reflexivity.
Qed.

(* ------------------------------------------------------------------------- *)
(** ** The 2025 single schedule is valid *)

Lemma TAX_BRACKETS_2025_single_valid : validSchedule TAX_BRACKETS_2025_single.
Proof.
  unfold validSchedule, TAX_BRACKETS_2025_single. simpl.
  repeat split; try reflexivity; unfold Qle; simpl; lia.
Defined.

Lemma calculateBracketTax_monotone_continuous_witness :
  validSchedule TAX_BRACKETS_2025_single /\
  calculateBracketTax 48475 TAX_BRACKETS_2025_single
    <= calculateBracketTax 60000 TAX_BRACKETS_2025_single.
Proof.
  split; [exact TAX_BRACKETS_2025_single_valid |].
  apply (proj1 (calculateBracketTax_monotone_continuous
                  TAX_BRACKETS_2025_single TAX_BRACKETS_2025_single_valid)).
  unfold Qle. simpl. lia.
Defined.

(* ------------------------------------------------------------------------- *)
(** ** The host: clock and time zone (C9) *)

Ltac let_step :=
  lazymatch goal with
  | |- (let x := ?v in @?f x) = (let y := ?v in @?g y) =>
      apply (let_intro v f g); intro; cbv beta
  end.

Ltac bind_step :=
  lazymatch goal with
  | |- match ?e with Some _ => _ | None => None end
       = match ?e with Some _ => _ | None => None end =>
      destruct e; [| reflexivity]
  end.

(** Nothing but the senior bonus reads the birth date. *)
Lemma birth_field (b : BirthDate) (form : Form.t) (name : string) :
  field (withBirthDate b form) name = field form name.
Proof. reflexivity. Qed.

Lemma birth_filingStatus (b : BirthDate) (form : Form.t) :
  filingStatus (withBirthDate b form) = filingStatus form.
Proof. reflexivity. Qed.

Lemma birth_totalIncome (b : BirthDate) (form : Form.t) :
  totalIncome (withBirthDate b form) = totalIncome form.
Proof. reflexivity. Qed.

Lemma birth_useObbba2025 (b : BirthDate) (form : Form.t) :
  useObbba2025 (withBirthDate b form) = useObbba2025 form.
Proof. reflexivity. Qed.

Lemma birth_phaseOutPct (b : BirthDate) (form : Form.t) :
  phaseOutPct (withBirthDate b form) = phaseOutPct form.
Proof.
  unfold phaseOutPct, magiForPhaseOut, tentativeTotalIncome,
    tentativeAdjustments.
  rewrite birth_totalIncome, birth_filingStatus, !birth_field.
  reflexivity.
Qed.

Lemma birth_itemizedTotal (b : BirthDate) (form : Form.t) (agi : Q) :
  itemizedTotal (withBirthDate b form) agi = itemizedTotal form agi.
Proof.
  unfold itemizedTotal, medicalDeductible, actualSalt, saltCap, getSaltCap.
  rewrite !birth_field, !birth_filingStatus.
  change (getPolicyFlags (withBirthDate b form)) with (getPolicyFlags form).
  reflexivity.
Qed.

(** The adjustments are a sum that ends with the senior bonus. *)
Lemma totalAdjustments_birth (today today' : Date) (b : BirthDate)
    (form : Form.t) (sed : Q) :
  totalAdjustments today (withBirthDate b form) sed
  - totalAdjustments today' form sed
  == seniorBonus today (withBirthDate b form) - seniorBonus today' form.
Proof.
  unfold totalAdjustments, tipsDeduction, overtimeDeduction,
    autoLoanDeduction.
  rewrite !birth_field, !birth_phaseOutPct, !birth_useObbba2025.
  match goal with
  | |- ?a + ?x - (?a + ?y) == _ => generalize a x y
  end.
  intros a x y. lra.
Qed.

Lemma totalAdjustments_same_bonus (today today' : Date) (b : BirthDate)
    (form : Form.t) (sed : Q) :
  seniorBonus today (withBirthDate b form) = seniorBonus today' form ->
  totalAdjustments today (withBirthDate b form) sed
  = totalAdjustments today' form sed.
Proof.
  intros H.
  unfold totalAdjustments, tipsDeduction, overtimeDeduction,
    autoLoanDeduction.
  rewrite !birth_field, !birth_phaseOutPct, !birth_useObbba2025, H.
  reflexivity.
Qed.

(** A run reads the clock and the birth date for the senior bonus only. *)
Lemma calculateTotalTax_same_bonus (today today' : Date) (b : BirthDate)
    (form : Form.t) :
  seniorBonus today (withBirthDate b form) = seniorBonus today' form ->
  calculateTotalTax today (withBirthDate b form)
  = calculateTotalTax today' form.
Proof.
  intros H.
  cbv delta [calculateTotalTax]. cbv beta.
  change (filingStatus (withBirthDate b form)) with (filingStatus form).
  change (totalIncome (withBirthDate b form)) with (totalIncome form).
  change (wagesForSET (withBirthDate b form)) with (wagesForSET form).
  change (scheduleC (withBirthDate b form)) with (scheduleC form).
  do 3 let_step. bind_step. let_step.
  rewrite (totalAdjustments_same_bonus today today' b form _ H).
  do 2 let_step. bind_step.
  rewrite birth_itemizedTotal. let_step.
  change (itemizes (withBirthDate b form)) with (itemizes form).
  let_step.
  change (qbiDeduction (withBirthDate b form)) with (qbiDeduction form).
  do 2 let_step.
  change (totalQualifiedIncome (withBirthDate b form))
    with (totalQualifiedIncome form).
  do 2 let_step. bind_step. let_step. bind_step.
  cbv beta iota. let_step.
  change (investmentIncome (withBirthDate b form))
    with (investmentIncome form).
  bind_step. reflexivity.
Qed.

Lemma seniorBonus_seniorIn (host : Host.t) (form : TaxForm.t) :
  seniorBonus (Host.today host) (formIn host form)
  = if seniorIn host form then 6000 else 0.
Proof. reflexivity. Qed.

(** Without the toggle, or without a birth date [new Date] can read, no host
    finds a senior. *)
Lemma seniorIn_no_birth_date (host : Host.t) (form : TaxForm.t) :
  useObbba2025 (TaxForm.others form) = false
  \/ TaxForm.birthDate form = Falsy
  \/ TaxForm.birthDate form = NotADate ->
  seniorIn host form = false.
Proof.
  unfold seniorIn, formIn. rewrite birth_useObbba2025.
  intros [H | [H | H]].
  - rewrite H. reflexivity.
  - rewrite H. simpl. apply andb_false_r.
  - rewrite H. simpl. apply andb_false_r.
Qed.

(** In one time zone, a filer who is a senior stays one as the clock
    advances: the result of a form changes at most once. *)
Lemma seniorIn_clock (h1 h2 : Host.t) (form : TaxForm.t) :
  Host.utcOffset h1 = Host.utcOffset h2 ->
  notAfter (Host.today h1) (Host.today h2) ->
  seniorIn h1 form = true -> seniorIn h2 form = true.
Proof.
  unfold seniorIn, formIn, notAfter. rewrite !birth_useObbba2025.
  intros Hzone Hclock.
  destruct (useObbba2025 (TaxForm.others form)); [| discriminate].
  cbn [andb withBirthDate Form.birthDate].
  destruct (TaxForm.birthDate form) as [| | day]; cbn [readBirthDate];
    [discriminate | discriminate |].
  rewrite <- Hzone.
  generalize (localFields (Host.utcOffset h1) day). intros birth.
  unfold calculateAge, atLeast65. cbv zeta.
  destruct (Z.ltb_spec (getMonth (Host.today h1) - getMonth birth) 0);
    destruct (Z.eqb_spec (getMonth (Host.today h1) - getMonth birth) 0);
    destruct (Z.ltb_spec (getDate (Host.today h1)) (getDate birth));
    destruct (Z.ltb_spec (getMonth (Host.today h2) - getMonth birth) 0);
    destruct (Z.eqb_spec (getMonth (Host.today h2) - getMonth birth) 0);
    destruct (Z.ltb_spec (getDate (Host.today h2)) (getDate birth));
    cbn [orb andb];
    intros Hage; apply Z.leb_le in Hage; apply Z.leb_le; lia.
Qed.

(** C9, as the code has it: the system clock and the time zone of the
    process are inputs of [calculateTotalTax] besides the form.  Two runs on
    the same form, each in its host, return the same Tax Result if and only
    if they agree on the condition of the senior bonus (toggle on and age at
    least 65 by the local fields of [new Date()] and of
    [new Date(form.birthDate)]); they always agree when the toggle is off or
    the form has no birth date [new Date] can read.  Two runs that disagree
    return the same totalIncome, and a totalAdjustments and an agi that
    differ by 6000.  There are two Tax Results unless the filing status
    names an inherited member. *)
Theorem calculateTotalTax_hosts (h1 h2 : Host.t) (form : TaxForm.t) :
  inherited (filingStatus (TaxForm.others form)) = false ->
  exists r1 r2,
    calculateTotalTaxIn h1 form = Some r1 /\
    calculateTotalTaxIn h2 form = Some r2 /\
    (r1 = r2 <-> seniorIn h1 form = seniorIn h2 form) /\
    (useObbba2025 (TaxForm.others form) = false
     \/ TaxForm.birthDate form = Falsy
     \/ TaxForm.birthDate form = NotADate -> r1 = r2) /\
    TaxResult.totalIncome r1 = TaxResult.totalIncome r2 /\
    TaxResult.totalAdjustments r1 - TaxResult.totalAdjustments r2
      == (if seniorIn h1 form then 6000 else 0)
         - (if seniorIn h2 form then 6000 else 0) /\
    TaxResult.agi r2 - TaxResult.agi r1
      == (if seniorIn h1 form then 6000 else 0)
         - (if seniorIn h2 form then 6000 else 0).
Proof.
  intros Hs.
  destruct (calculateTotalTax_total (Host.today h1) (formIn h1 form) Hs)
    as [r1 H1].
  destruct (calculateTotalTax_total (Host.today h2) (formIn h2 form) Hs)
    as [r2 H2].
  exists r1, r2.
  split; [exact H1 |]. split; [exact H2 |].
  (* the same run, when both hosts agree on the senior bonus *)
  assert (Hsame : seniorIn h1 form = seniorIn h2 form -> r1 = r2).
  { intros Hb.
    assert (E : calculateTotalTax (Host.today h1) (formIn h1 form)
                = calculateTotalTax (Host.today h2) (formIn h2 form)).
    { change (formIn h1 form)
        with (withBirthDate (readBirthDate h1 (TaxForm.birthDate form))
                            (formIn h2 form)).
      apply calculateTotalTax_same_bonus.
      change (withBirthDate (readBirthDate h1 (TaxForm.birthDate form))
                            (formIn h2 form))
        with (formIn h1 form).
      rewrite !seniorBonus_seniorIn, Hb. reflexivity. }
    rewrite H1, H2 in E. injection E as E. exact E. }
  (* the fields of the two results *)
  assert (Hdiff :
    TaxResult.totalIncome r1 = TaxResult.totalIncome r2 /\
    TaxResult.totalAdjustments r1 - TaxResult.totalAdjustments r2
      == (if seniorIn h1 form then 6000 else 0)
         - (if seniorIn h2 form then 6000 else 0) /\
    TaxResult.agi r2 - TaxResult.agi r1
      == (if seniorIn h1 form then 6000 else 0)
         - (if seniorIn h2 form then 6000 else 0)).
  { rewrite <- !seniorBonus_seniorIn.
    clear Hsame. open_run H1. open_run H2.
    change (scheduleC (formIn h1 form)) with (scheduleC (formIn h2 form))
      in Ese.
    change (wagesForSET (formIn h1 form)) with (wagesForSET (formIn h2 form))
      in Ese.
    change (filingStatus (formIn h1 form))
      with (filingStatus (formIn h2 form)) in Ese.
    assert (Ese' : se0 = se) by congruence. subst se0.
    change (totalIncome (formIn h1 form)) with (totalIncome (formIn h2 form)).
    assert (D := totalAdjustments_birth (Host.today h1) (Host.today h2)
                   (readBirthDate h1 (TaxForm.birthDate form))
                   (formIn h2 form) (SE.deduction se)).
    change (withBirthDate (readBirthDate h1 (TaxForm.birthDate form))
                          (formIn h2 form))
      with (formIn h1 form) in D.
    split; [reflexivity |]. split; [exact D | lra]. }
  destruct Hdiff as [Hincome [Hadj Hagi]].
  split.
  - split; [| exact Hsame].
    intros ->.
    destruct (seniorIn h1 form), (seniorIn h2 form);
      try reflexivity; exfalso; lra.
  - split.
    + intros Hno. apply Hsame.
      rewrite !(seniorIn_no_birth_date _ form Hno). reflexivity.
    + split; [exact Hincome |]. split; [exact Hadj | exact Hagi].
Qed.

Lemma calculateTotalTax_hosts_witness :
  inherited (filingStatus (TaxForm.others born1960July1)) = false /\
  exists r1 r2,
    calculateTotalTaxIn newYork_june30 born1960July1 = Some r1 /\
    calculateTotalTaxIn utc_june30 born1960July1 = Some r2 /\
    TaxResult.agi r2 - TaxResult.agi r1 == 6000.
Proof.
  assert (H : inherited (filingStatus (TaxForm.others born1960July1)) = false)
    by reflexivity.
  split; [exact H |].
  destruct (calculateTotalTax_hosts newYork_june30 utc_june30 born1960July1 H)
    as [r1 [r2 [H1 [H2 [_ [_ [_ [_ Hagi]]]]]]]].
  exists r1, r2. split; [exact H1 |]. split; [exact H2 |]. exact Hagi.
Defined.

(** C9 as stated fails: the same form, run the day before and on the 65th
    birthday of the filer, gives two different Tax Results. *)
Lemma calculateTotalTax_depends_on_clock :
  exists r1 r2,
    calculateTotalTax june30 turning65 = Some r1 /\
    calculateTotalTax july1 turning65 = Some r2 /\
    TaxResult.totalAdjustments r1 == 0 /\
    TaxResult.totalAdjustments r2 == 6000 /\
    ~ TaxResult.agi r1 == TaxResult.agi r2.
Proof.
  eexists. eexists.
  split; [vm_compute; reflexivity |].
  split; [vm_compute; reflexivity |].
  split; [vm_compute; reflexivity |].
  split; [vm_compute; reflexivity |].
  vm_compute. discriminate.
Qed.

(** The time zone is an input too: the form with the birth date
    ['1960-07-01'], run when the local date is 30 June 2025, has the senior
    bonus four hours west of UTC, where the birth date reads 30 June 1960,
    and not in UTC. *)
Lemma calculateTotalTax_depends_on_time_zone :
  readBirthDate newYork_june30 (TaxForm.birthDate born1960July1)
    = Born {| getFullYear := 1960; getMonth := 5; getDate := 30 |} /\
  readBirthDate utc_june30 (TaxForm.birthDate born1960July1)
    = Born {| getFullYear := 1960; getMonth := 6; getDate := 1 |} /\
  exists r1 r2,
    calculateTotalTaxIn newYork_june30 born1960July1 = Some r1 /\
    calculateTotalTaxIn utc_june30 born1960July1 = Some r2 /\
    TaxResult.totalAdjustments r1 == 6000 /\
    TaxResult.totalAdjustments r2 == 0 /\
    ~ TaxResult.agi r1 == TaxResult.agi r2.
Proof.
  split; [reflexivity |]. split; [reflexivity |].
  eexists. eexists.
  split; [vm_compute; reflexivity |].
  split; [vm_compute; reflexivity |].
  split; [vm_compute; reflexivity |].
  split; [vm_compute; reflexivity |].
  vm_compute. discriminate.
Qed.

(* ------------------------------------------------------------------------- *)
(** ** Further properties of the bracket engine *)

(** On a valid schedule the tax on a non-negative income is at most the
    largest rate times the income. *)
Lemma calculateBracketTax_le_maxRate (brackets : Schedule) (income : Q) :
  validSchedule brackets -> 0 <= income ->
  calculateBracketTax income brackets <= maxRate brackets * income.
Proof.
  intros Hvalid Hinc.
  destruct (calculateBracketTax_slope brackets 0 income Hvalid Hinc) as [_ Hup].
  assert (H0 : calculateBracketTax 0 brackets = 0) by reflexivity.
  rewrite H0 in Hup. lra.
Qed.

(** On a valid schedule the tax on a non-negative income is at least the
    first rate times the income. *)
Lemma calculateBracketTax_ge_firstRate (brackets : Schedule) (income : Q) :
  validSchedule brackets -> 0 <= income ->
  firstRate brackets * income <= calculateBracketTax income brackets.
Proof.
  intros Hvalid Hinc.
  destruct Hvalid as [Hfirst Hasc].
  destruct brackets as [| [l0 r0] rest]; [contradiction |].
  simpl firstRate.
  destruct (bracketLoop_increment _ Hasc l0 r0 rest eq_refl l0 income)
    as [r [H1 [H2 [H3 [H4 H5]]]]]; try lra.
  assert (Hbase := bracketLoop_base l0 r0 rest Hasc).
  assert (E : r * l0 == 0) by (rewrite Hfirst; ring).
  scale r0 r income.
  unfold calculateBracketTax.
  destruct (Qleb_spec income 0) as [Hle | Hgt].
  - assert (income == 0) by lra.
    assert (r0 * income == 0) by (rewrite H; ring). lra.
  - split_max 0 (bracketLoop income ((l0, r0) :: rest) 0); lra.
Qed.



Lemma rateAt_step (limit rate nextLimit nextRate : Q) (rest : Schedule)
    (income : Q) :
  rateAt ((limit, rate) :: (nextLimit, nextRate) :: rest) income
  = if income >? nextLimit
    then rateAt ((nextLimit, nextRate) :: rest) income
    else rate.
Proof. reflexivity. Qed.

Lemma rateAt_ge_first (brackets : Schedule) (income : Q) :
  ascending brackets -> firstRate brackets <= rateAt brackets income.
Proof.
  induction brackets as [| [l0 r0] tail IH]; intros Hasc.
  - simpl. lra.
  - destruct tail as [| [l1 r1] tail'].
    + simpl. lra.
    + destruct Hasc as [_ [Hr Hasc']]. specialize (IH Hasc').
      rewrite rateAt_step. simpl firstRate in *.
      destruct (income >? l1); lra.
Qed.

Lemma rateAt_monotone (brackets : Schedule) (a b : Q) :
  ascending brackets -> a <= b -> rateAt brackets a <= rateAt brackets b.
Proof.
  induction brackets as [| [l0 r0] tail IH]; intros Hasc Hab.
  - simpl. lra.
  - destruct tail as [| [l1 r1] tail'].
    + simpl. lra.
    + destruct Hasc as [_ [Hr Hasc']].
      rewrite !rateAt_step.
      destruct (Qgtb_spec a l1); destruct (Qgtb_spec b l1); try lra.
      * apply IH; assumption.
      * assert (H := rateAt_ge_first ((l1, r1) :: tail') b Hasc').
        simpl firstRate in H. lra.
Qed.

(** Between two incomes above the first threshold, the loop grows at least
    at the rate of the bracket of the lower income and at most at the rate
    of the bracket of the higher one. *)
Lemma bracketLoop_marginal (brackets : Schedule) :
  ascending brackets ->
  forall limit rate rest, brackets = (limit, rate) :: rest ->
  forall a b, limit <= a -> a <= b ->
  rateAt brackets a * (b - a)
    <= bracketLoop b brackets 0 - bracketLoop a brackets 0
  /\ bracketLoop b brackets 0 - bracketLoop a brackets 0
    <= rateAt brackets b * (b - a).
Proof.
  induction brackets as [| [l0 r0] tail IH];
    intros Hasc limit rate rest Heq a b Hla Hab.
  - discriminate.
  - injection Heq as <- <- <-.
    destruct tail as [| [l1 r1] tail'].
    + simpl. split; lra.
    + destruct Hasc as [Hl [Hr Hasc']].
      specialize (IH Hasc' l1 r1 tail' eq_refl).
      assert (Hbase := bracketLoop_base l1 r1 tail' Hasc').
      assert (Hfirst := rateAt_ge_first ((l1, r1) :: tail') b Hasc').
      simpl firstRate in Hfirst.
      rewrite !bracketLoop_step, !rateAt_step.
      destruct (Qgtb_spec a l1) as [Ha | Ha];
        destruct (Qgtb_spec b l1) as [Hb | Hb]; try lra.
      * destruct (IH a b) as [H1 H2]; try lra.
        assert (Ea := bracketLoop_acc a ((l1, r1) :: tail') (0 + (l1 - l0) * r0)).
        assert (Eb := bracketLoop_acc b ((l1, r1) :: tail') (0 + (l1 - l0) * r0)).
        split; lra.
      * destruct (IH l1 b) as [H1 H2]; try lra.
        assert (Eb := bracketLoop_acc b ((l1, r1) :: tail') (0 + (l1 - l0) * r0)).
        assert (E1 : rateAt ((l1, r1) :: tail') l1 = r1).
        { destruct tail' as [| [l2 r2] tail'']; [reflexivity |].
          rewrite rateAt_step. destruct Hasc' as [Hl2 _].
          destruct (Qgtb_spec l1 l2); [lra | reflexivity]. }
        rewrite E1 in H1.
        scale r0 r1 (b - l1).
        scale r0 (rateAt ((l1, r1) :: tail') b) (l1 - a).
        split; lra.
Qed.

Lemma getMarginalRate_rateAt (income : Q) :
  getMarginalRate income = rateAt TAX_BRACKETS_2025_single income.
Proof.
  unfold getMarginalRate, TAX_BRACKETS_2025_single.
  rewrite !rateAt_step. simpl rateAt.
  destruct (Qgtb_spec income 626350); destruct (Qgtb_spec income 250525);
    destruct (Qgtb_spec income 197300); destruct (Qgtb_spec income 103350);
    destruct (Qgtb_spec income 48475); destruct (Qgtb_spec income 11925);
    try reflexivity; lra.
Qed.

(** X2: [getMarginalRate] is the marginal rate of [calculateBracketTax] on the
    2025 single schedule: between two incomes [0 <= a <= b] the tax grows by
    at least [getMarginalRate a] and at most [getMarginalRate b] per unit of
    income. *)
Theorem getMarginalRate_is_marginal (a b : Q) :
  0 <= a -> a <= b ->
  getMarginalRate a * (b - a)
    <= calculateBracketTax b TAX_BRACKETS_2025_single
       - calculateBracketTax a TAX_BRACKETS_2025_single
  /\ calculateBracketTax b TAX_BRACKETS_2025_single
     - calculateBracketTax a TAX_BRACKETS_2025_single
    <= getMarginalRate b * (b - a).
Proof.
  intros Ha Hab.
  rewrite !getMarginalRate_rateAt.
  destruct TAX_BRACKETS_2025_single_valid as [_ Hasc].
  assert (Hm := bracketLoop_marginal _ Hasc 0 0.10 _ eq_refl a b Ha Hab).
  assert (Hloop : forall x, 0 <= x ->
            calculateBracketTax x TAX_BRACKETS_2025_single
            == bracketLoop x TAX_BRACKETS_2025_single 0).
  { intros x Hx. unfold calculateBracketTax.
    assert (H0 := bracketLoop_marginal _ Hasc 0 0.10 _ eq_refl 0 x
                    ltac:(lra) Hx).
    assert (Hf := rateAt_ge_first TAX_BRACKETS_2025_single 0 Hasc).
    simpl firstRate in Hf.
    assert (Hb0 : bracketLoop 0 TAX_BRACKETS_2025_single 0 == 0)
      by (vm_compute; reflexivity).
    scale 0.10 (rateAt TAX_BRACKETS_2025_single 0) x.
    destruct (Qleb_spec x 0).
    - assert (Hx0 : x - 0 == 0) by lra.
      assert (E0 : rateAt TAX_BRACKETS_2025_single 0 * (x - 0) == 0)
        by (rewrite Hx0; ring).
      assert (Ex : rateAt TAX_BRACKETS_2025_single x * (x - 0) == 0)
        by (rewrite Hx0; ring).
      lra.
    - split_max 0 (bracketLoop x TAX_BRACKETS_2025_single 0); lra. }
  rewrite (Hloop a Ha), (Hloop b ltac:(lra)). exact Hm.
Qed.

Lemma getMarginalRate_is_marginal_witness :
  0 <= 40000 /\ 40000 <= 60000 /\
  getMarginalRate 40000 * (60000 - 40000)
    <= calculateBracketTax 60000 TAX_BRACKETS_2025_single
       - calculateBracketTax 40000 TAX_BRACKETS_2025_single.
Proof.
  assert (H1 : 0 <= 40000) by (unfold Qle; simpl; lia).
  assert (H2 : 40000 <= 60000) by (unfold Qle; simpl; lia).
  split; [exact H1 |]. split; [exact H2 |].
  exact (proj1 (getMarginalRate_is_marginal 40000 60000 H1 H2)).
Defined.

(** X3: [getMarginalRate] never decreases with income and stays between 10%
    and 37%. *)
Theorem getMarginalRate_monotone (a b : Q) :
  a <= b ->
  getMarginalRate a <= getMarginalRate b /\
  0.10 <= getMarginalRate a /\ getMarginalRate a <= 0.37.
Proof.
  intros Hab. rewrite !getMarginalRate_rateAt.
  destruct TAX_BRACKETS_2025_single_valid as [_ Hasc].
  split; [apply rateAt_monotone; assumption |].
  rewrite <- getMarginalRate_rateAt. unfold getMarginalRate.
  repeat match goal with
         | |- context [if ?c then _ else _] => destruct c
         end; split; unfold Qle; simpl; lia.
Qed.

Lemma getMarginalRate_monotone_witness :
  48475 <= 48476 /\ getMarginalRate 48475 <= getMarginalRate 48476.
Proof.
  assert (H : 48475 <= 48476) by (unfold Qle; simpl; lia).
  split; [exact H |].
  exact (proj1 (getMarginalRate_monotone 48475 48476 H)).
Defined.



(* ------------------------------------------------------------------------- *)
(** ** Further properties of the capital gains stacker *)

Lemma capitalGains_table (status : FilingStatus) :
  getProperty CAPITAL_GAINS_BRACKETS_2025 (key status)
  = Own (threeTier (fst (capitalGainsThresholds status))
                   (snd (capitalGainsThresholds status))).
Proof. destruct status; reflexivity. Qed.

Lemma capitalGainsThresholds_order (status : FilingStatus) :
  0 < fst (capitalGainsThresholds status) /\
  fst (capitalGainsThresholds status) < snd (capitalGainsThresholds status).
Proof. destruct status; split; reflexivity. Qed.

(** What the loop computes on a three-tier schedule: 20% of the gains above
    the upper threshold, and 15% of the smaller of the remaining gains and
    the gains above the lower threshold. *)
Lemma gainsLoop_threeTier (t15 t20 o g : Q) :
  0 < t15 -> t15 < t20 -> 0 <= o -> 0 < g ->
  let total := o + g in
  let part20 := Qmax 0 (total - Qmax o t20) in
  let part15 := Qmin (g - part20) (Qmax 0 (total - Qmax o t15)) in
  gainsLoop o total (rev (threeTier t15 t20)) 0 g
  == 0.20 * part20 + 0.15 * part15.
Proof.
  intros H15 H20 Ho Hg. cbv zeta.
  unfold threeTier. simpl rev. simpl app. cbn [gainsLoop].
  destruct (Qgtb_spec g 0) as [_ | Hn]; [| lra].
  destruct (Qlt_le_dec o t15); destruct (Qlt_le_dec o t20); try lra.
  all: destruct (Qlt_le_dec t15 (o + g)); try lra.
  all: destruct (Qlt_le_dec t20 (o + g)); try lra.
  all: split_max o t20; try lra.
  all: split_max o t15; try lra.
  all: split_max o 0; try lra.
  all: split_max 0 (o + g - Qmax o t20); try lra.
  all: split_max 0 (o + g - Qmax o t15); try lra.
  all: split_min (g - Qmax 0 (o + g - Qmax o t20))
                 (Qmax 0 (o + g - Qmax o t15)); try lra.
  all: destruct (Qgtb_spec (o + g) t20); try lra.
  all: try (split_min g (o + g - Qmax o t20); try lra).
  all: repeat match goal with
         | |- context [?x >? ?y] => destruct (Qgtb_spec x y); try lra
         end.
  all: repeat match goal with
         | |- context [Qmin ?x ?y] =>
             let E := fresh "E" in
             destruct (Q.min_spec x y) as [[? E] | [? E]]; rewrite E; try lra
         | |- context [Qmax ?x ?y] =>
             let E := fresh "E" in
             destruct (Q.max_spec x y) as [[? E] | [? E]]; rewrite E; try lra
         end.
Qed.

(** The bracket engine on a three-tier schedule. *)
Lemma calculateBracketTax_threeTier (t15 t20 x : Q) :
  0 < t15 -> t15 < t20 -> 0 <= x ->
  calculateBracketTax x (threeTier t15 t20)
  == 0.15 * Qmax 0 (Qmin x t20 - t15) + 0.20 * Qmax 0 (x - t20).
Proof.
  intros H15 H20 Hx. unfold calculateBracketTax, threeTier.
  rewrite !bracketLoop_step. simpl bracketLoop.
  destruct (Qleb_spec x 0); destruct (Qgtb_spec x t15);
    destruct (Qgtb_spec x t20); try lra.
  all: split_min x t20; try lra.
  all: split_max 0 (Qmin x t20 - t15); try lra.
  all: split_max 0 (x - t20); try lra.
  all: match goal with |- context [Qmax 0 ?e] => split_max 0 e; lra end.
Qed.

Section CapitalGains.

Variables (status : FilingStatus) (ordinary gains : Q).
Hypothesis Hordinary : 0 <= ordinary.
Hypothesis Hgains : 0 < gains.

Local Notation "'t15'" := (fst (capitalGainsThresholds status)).
Local Notation "'t20'" := (snd (capitalGainsThresholds status)).

(** The result of [calculateCapitalGainsTax] for a filing status. *)
Lemma calculateCapitalGainsTax_closed :
  exists t,
    calculateCapitalGainsTax ordinary gains (key status) = Some t /\
    t == 0.20 * Qmax 0 (ordinary + gains - Qmax ordinary t20)
         + 0.15 * Qmin (gains - Qmax 0 (ordinary + gains - Qmax ordinary t20))
                       (Qmax 0 (ordinary + gains - Qmax ordinary t15)).
Proof.
  destruct (capitalGainsThresholds_order status) as [H15 H20].
  unfold calculateCapitalGainsTax.
  destruct (Qleb_spec gains 0); [lra |].
  rewrite capitalGains_table. simpl orFallback. cbv zeta.
  eexists. split; [reflexivity |].
  assert (E := gainsLoop_threeTier t15 t20 ordinary gains H15 H20
                 Hordinary Hgains). cbv zeta in E.
  rewrite E.
  set (p20 := Qmax 0 (ordinary + gains - Qmax ordinary t20)).
  set (p15 := Qmax 0 (ordinary + gains - Qmax ordinary t15)).
  assert (0 <= p20) by apply Qmax_0_nonneg.
  assert (0 <= p15) by apply Qmax_0_nonneg.
  assert (p20 <= gains).
  { unfold p20. split_max ordinary t20;
      split_max 0 (ordinary + gains - Qmax ordinary t20); lra. }
  split_min (gains - p20) p15;
    split_max 0 (0.20 * p20 + 0.15 * Qmin (gains - p20) p15); lra.
Qed.

End CapitalGains.

(** Gains on top of a non-negative ordinary income are never taxed more
    than 20%. *)
Lemma calculateCapitalGainsTax_le_top_rate (status : FilingStatus)
    (ordinary gains : Q) :
  0 <= ordinary -> 0 < gains ->
  exists t,
    calculateCapitalGainsTax ordinary gains (key status) = Some t /\
    t <= 0.20 * gains.
Proof.
  intros Ho Hg.
  destruct (calculateCapitalGainsTax_closed status ordinary gains Ho Hg)
    as [t [Ht E]].
  destruct (capitalGainsThresholds_order status) as [H15 H20].
  exists t. split; [exact Ht |].
  set (t15 := fst (capitalGainsThresholds status)) in *.
  set (t20 := snd (capitalGainsThresholds status)) in *.
  split_max ordinary t20; split_max ordinary t15;
    split_max 0 (ordinary + gains - Qmax ordinary t20);
    split_max 0 (ordinary + gains - Qmax ordinary t15);
    split_min (gains - Qmax 0 (ordinary + gains - Qmax ordinary t20))
              (Qmax 0 (ordinary + gains - Qmax ordinary t15));
    lra.
Qed.

(** X5: No tax in the 0% zone, never more than the top rate: for every filing
    status, gains on top of a non-negative ordinary income are taxed 0 when
    ordinary income plus gains does not exceed the 15% threshold of the
    status, and never more than 20% of the gains. *)
Theorem calculateCapitalGainsTax_zero_zone_and_cap (status : FilingStatus)
    (ordinary gains : Q) :
  0 <= ordinary -> 0 < gains ->
  exists t,
    calculateCapitalGainsTax ordinary gains (key status) = Some t /\
    (ordinary + gains <= fst (capitalGainsThresholds status) -> t == 0) /\
    t <= 0.20 * gains.
Proof.
  intros Ho Hg.
  destruct (calculateCapitalGainsTax_closed status ordinary gains Ho Hg)
    as [t [Ht E]].
  destruct (capitalGainsThresholds_order status) as [H15 H20].
  exists t. split; [exact Ht |].
  set (t15 := fst (capitalGainsThresholds status)) in *.
  set (t20 := snd (capitalGainsThresholds status)) in *.
  split_max ordinary t20; split_max ordinary t15;
    split_max 0 (ordinary + gains - Qmax ordinary t20);
    split_max 0 (ordinary + gains - Qmax ordinary t15);
    split_min (gains - Qmax 0 (ordinary + gains - Qmax ordinary t20))
              (Qmax 0 (ordinary + gains - Qmax ordinary t15));
    split; intros; lra.
Qed.

Lemma calculateCapitalGainsTax_zero_zone_and_cap_witness :
  0 <= 40000 /\ 0 < 20000 /\
  exists t,
    calculateCapitalGainsTax 40000 20000 "single" = Some t /\
    t <= 0.20 * 20000.
Proof.
  assert (H1 : 0 <= 40000) by (unfold Qle; simpl; lia).
  assert (H2 : 0 < 20000) by reflexivity.
  split; [exact H1 |]. split; [exact H2 |].
  destruct (calculateCapitalGainsTax_zero_zone_and_cap single 40000 20000
              H1 H2) as [t [Ht [_ Hcap]]].
  exists t. split; [exact Ht | exact Hcap].
Defined.



(** X7: When the gains span all three tiers (ordinary income below the 15%
    threshold, ordinary income plus gains above the 20% threshold) the result
    is 20% of what lies above the 20% threshold plus 15% of the smaller of
    [t20 - ordinary] and [ordinary + gains - t15]: the part of the gains
    below the 15% threshold is taxed at 15% too, and the result exceeds the
    bracket tax of the schedule on the gains. *)
Theorem calculateCapitalGainsTax_three_tiers (status : FilingStatus)
    (ordinary gains : Q) :
  let t15 := fst (capitalGainsThresholds status) in
  let t20 := snd (capitalGainsThresholds status) in
  0 <= ordinary -> ordinary < t15 -> t20 < ordinary + gains ->
  exists t,
    calculateCapitalGainsTax ordinary gains (key status) = Some t /\
    t == 0.20 * (ordinary + gains - t20)
         + 0.15 * Qmin (t20 - ordinary) (ordinary + gains - t15) /\
    calculateBracketTax (ordinary + gains) (threeTier t15 t20)
      - calculateBracketTax ordinary (threeTier t15 t20) < t.
Proof.
  intros t15 t20 Ho Hlow Hhigh.
  destruct (capitalGainsThresholds_order status) as [H15 H20].
  fold t15 t20 in H15, H20.
  assert (Hg : 0 < gains) by lra.
  destruct (calculateCapitalGainsTax_closed status ordinary gains Ho Hg)
    as [t [Ht E]].
  fold t15 t20 in E.
  exists t. split; [exact Ht |].
  rewrite (calculateBracketTax_threeTier t15 t20 (ordinary + gains) H15 H20)
    by lra.
  rewrite (calculateBracketTax_threeTier t15 t20 ordinary H15 H20 Ho).
  rewrite E. clear E Ht.
  split_max ordinary t20; try lra. split_max ordinary t15; try lra.
  split_max 0 (ordinary + gains - Qmax ordinary t20); try lra.
  split_max 0 (ordinary + gains - Qmax ordinary t15); try lra.
  split_min (gains - Qmax 0 (ordinary + gains - Qmax ordinary t20))
            (Qmax 0 (ordinary + gains - Qmax ordinary t15));
    split_min (t20 - ordinary) (ordinary + gains - t15);
    split_min (ordinary + gains) t20; try lra;
    split_min ordinary t20; try lra;
    split_max 0 (Qmin (ordinary + gains) t20 - t15); try lra;
    split_max 0 (Qmin ordinary t20 - t15); try lra;
    split_max 0 (ordinary + gains - t20); try lra;
    split_max 0 (ordinary - t20); try lra;
    split; lra.
Qed.

Lemma calculateCapitalGainsTax_three_tiers_witness :
  0 <= 10000 /\ 10000 < 48350 /\ 533400 < 10000 + 600000 /\
  exists t,
    calculateCapitalGainsTax 10000 600000 "single" = Some t /\
    t == 0.20 * (10000 + 600000 - 533400)
         + 0.15 * Qmin (533400 - 10000) (10000 + 600000 - 48350).
Proof.
  assert (H1 : 0 <= 10000) by (unfold Qle; simpl; lia).
  assert (H2 : 10000 < fst (capitalGainsThresholds single)) by reflexivity.
  assert (H3 : snd (capitalGainsThresholds single) < 10000 + 600000)
    by reflexivity.
  split; [exact H1 |]. split; [exact H2 |]. split; [exact H3 |].
  destruct (calculateCapitalGainsTax_three_tiers single 10000 600000
              H1 H2 H3) as [t [Ht [E _]]].
  exists t. split; [exact Ht | exact E].
Defined.

(* ------------------------------------------------------------------------- *)
(** ** Further properties of the self-employment tax *)

Lemma calculateSelfEmploymentTax_key (net wages : Q) (status : FilingStatus) :
  0 < net ->
  let base := net * 0.9235 in
  let totalTax :=
    Qmin base (Qmax 0 (176100 - Qmin 176100 wages)) * 0.124
    + base * 0.029
    + Qmax 0 (base - Qmax 0 (additionalMedicareThreshold status - wages))
      * 0.009 in
  calculateSelfEmploymentTax net wages (key status)
  = Some {| SE.tax := totalTax; SE.deduction := totalTax * 0.5 |}.
Proof.
  intros Hnet. cbv zeta. unfold calculateSelfEmploymentTax.
  destruct (Qleb_spec net 0); [lra |].
  destruct status; reflexivity.
Qed.

(** Case analysis on the minima and maxima of the self-employment tax. *)
Ltac se_cases base wages threshold :=
  split_min 176100 wages;
  split_max 0 (176100 - Qmin 176100 wages);
  split_min base (Qmax 0 (176100 - Qmin 176100 wages));
  split_max 0 (threshold - wages);
  split_max 0 (base - Qmax 0 (threshold - wages)).

(** X8: The self-employment tax on a positive net income lies between 2.9% and
    16.2% of the taxable base (92.35% of the net income): the Medicare part
    is always due, the Social Security and Additional Medicare parts at most
    on the whole base. *)
Theorem calculateSelfEmploymentTax_bounds (net wages : Q)
    (status : FilingStatus) :
  0 < net ->
  exists r,
    calculateSelfEmploymentTax net wages (key status) = Some r /\
    0.029 * (net * 0.9235) <= SE.tax r /\
    SE.tax r <= 0.162 * (net * 0.9235).
Proof.
  intros Hnet.
  eexists. split; [apply (calculateSelfEmploymentTax_key _ _ _ Hnet) |].
  simpl SE.tax. set (base := net * 0.9235).
  assert (0 < base) by (unfold base; lra).
  se_cases base wages (additionalMedicareThreshold status); split; lra.
Qed.

Lemma calculateSelfEmploymentTax_bounds_witness :
  0 < 50000 /\
  exists r,
    calculateSelfEmploymentTax 50000 200000 "single" = Some r /\
    SE.tax r <= 0.162 * (50000 * 0.9235).
Proof.
  assert (H : 0 < 50000) by reflexivity.
  split; [exact H |].
  destruct (calculateSelfEmploymentTax_bounds 50000 200000 single H)
    as [r [Hr [_ Hup]]].
  exists r. split; [exact Hr | exact Hup].
Defined.





(** X11: More net income never means less self-employment tax, at the same
    wages and filing status. *)
Theorem calculateSelfEmploymentTax_monotone (net net' wages : Q)
    (status : FilingStatus) :
  net <= net' ->
  exists r r',
    calculateSelfEmploymentTax net wages (key status) = Some r /\
    calculateSelfEmploymentTax net' wages (key status) = Some r' /\
    SE.tax r <= SE.tax r'.
Proof.
  intros Hle.
  destruct (Qlt_le_dec 0 net) as [Hpos | Hneg].
  - assert (Hpos' : 0 < net') by lra.
    eexists. eexists.
    split; [apply (calculateSelfEmploymentTax_key _ _ _ Hpos) |].
    split; [apply (calculateSelfEmploymentTax_key _ _ _ Hpos') |].
    simpl SE.tax.
    set (base := net * 0.9235). set (base' := net' * 0.9235).
    assert (base <= base') by (unfold base, base'; lra).
    set (threshold := additionalMedicareThreshold status).
    split_min 176100 wages;
      split_max 0 (176100 - Qmin 176100 wages);
      split_max 0 (threshold - wages);
      split_min base (Qmax 0 (176100 - Qmin 176100 wages));
      split_min base' (Qmax 0 (176100 - Qmin 176100 wages));
      split_max 0 (base - Qmax 0 (threshold - wages));
      split_max 0 (base' - Qmax 0 (threshold - wages)); lra.
  - destruct (calculateSelfEmploymentTax_total net' wages (key status)
                (key_not_inherited status)) as [r' Hr'].
    exists {| SE.tax := 0; SE.deduction := 0 |}, r'.
    split.
    + unfold calculateSelfEmploymentTax.
      destruct (Qleb_spec net 0); [reflexivity | lra].
    + split; [exact Hr' |]. simpl.
      exact (proj1 (calculateSelfEmploymentTax_nonneg _ _ _ _ Hr')).
Qed.

Lemma calculateSelfEmploymentTax_monotone_witness :
  50000 <= 60000 /\
  exists r r',
    calculateSelfEmploymentTax 50000 0 "single" = Some r /\
    calculateSelfEmploymentTax 60000 0 "single" = Some r' /\
    SE.tax r <= SE.tax r'.
Proof.
  assert (H : 50000 <= 60000) by (unfold Qle; simpl; lia).
  split; [exact H |].
  exact (calculateSelfEmploymentTax_monotone 50000 60000 0 single H).
Defined.

(* ------------------------------------------------------------------------- *)
(** ** Further properties of the net investment income tax *)

(** X12: The NIIT grows with the AGI and with the net investment income; with a
    non-negative net investment income it is 0 up to the threshold of the
    filing status and never more than 3.8% of the investment income or of
    the AGI above the threshold. *)
Theorem calculateNIIT_monotone (agi agi' nii nii' : Q)
    (status : FilingStatus) :
  agi <= agi' -> nii <= nii' ->
  exists t t',
    calculateNIIT agi nii (key status) = Some t /\
    calculateNIIT agi' nii' (key status) = Some t' /\
    t <= t' /\
    (0 <= nii ->
       (agi <= NIIT_threshold status -> t == 0) /\
       t <= 0.038 * nii /\
       t <= 0.038 * Qmax 0 (agi - NIIT_threshold status)).
Proof.
  intros Hagi Hnii.
  eexists. eexists.
  split; [apply calculateNIIT_key |]. split; [apply calculateNIIT_key |].
  set (thr := NIIT_threshold status).
  split_max 0 (agi - thr); split_max 0 (agi' - thr);
    split_min (Qmax 0 (agi - thr)) nii;
    split_min (Qmax 0 (agi' - thr)) nii';
    (split; [lra | intros; split; [intros; lra | split; lra]]).
Qed.

Lemma calculateNIIT_monotone_witness :
  190000 <= 260000 /\ 50000 <= 50000 /\
  exists t t',
    calculateNIIT 190000 50000 "single" = Some t /\
    calculateNIIT 260000 50000 "single" = Some t' /\
    t <= t'.
Proof.
  assert (H1 : 190000 <= 260000) by (unfold Qle; simpl; lia).
  assert (H2 : 50000 <= 50000) by (unfold Qle; simpl; lia).
  split; [exact H1 |]. split; [exact H2 |].
  destruct (calculateNIIT_monotone 190000 260000 50000 50000 single H1 H2)
    as [t [t' [Ht [Ht' [Hle _]]]]].
  exists t, t'. split; [exact Ht |]. split; [exact Ht' | exact Hle].
Defined.

(* ------------------------------------------------------------------------- *)
(** ** Further properties of the pipeline *)

(** X13: The capital-loss limit: the Tax Result's total income is the income
    other than capital gains plus the net capital gain or loss, a loss
    counting for at most 3000 (1500 married filing separately). *)
Theorem capital_loss_limit (today : Date) (form : Form.t) (r : TaxResult.t) :
  calculateTotalTax today form = Some r ->
  capLossLimit form
    = (if String.eqb (filingStatus form) "marriedSeparate"
       then 1500 else 3000) /\
  TaxResult.totalIncome r
    == incomeBeforeCapital form
       + Qmax (netCapital form) (- capLossLimit form) /\
  incomeBeforeCapital form - capLossLimit form <= TaxResult.totalIncome r.
Proof.
  intros Hr. open_run Hr.
  split; [reflexivity |].
  unfold totalIncome, incomeBeforeCapital, cappedCapitalForAGI.
  assert (Hlimit : 0 < capLossLimit form).
  { unfold capLossLimit. destruct (String.eqb _ _); reflexivity. }
  set (net := netCapital form) in *. set (limit := capLossLimit form) in *.
  destruct (Qgeb_spec net 0).
  - split_max net (- limit); split; lra.
  - assert (Habs : Qabs net == - net) by (apply Qabs_neg; lra).
    split_min limit (Qabs net); split_max net (- limit); split; lra.
Qed.

Lemma capital_loss_limit_witness :
  exists r,
    calculateTotalTax june30 capitalLossOnly = Some r /\
    incomeBeforeCapital capitalLossOnly - capLossLimit capitalLossOnly
      <= TaxResult.totalIncome r.
Proof.
  destruct (calculateTotalTax_total june30 capitalLossOnly eq_refl) as [r Hr].
  exists r. split; [exact Hr |].
  exact (proj2 (proj2 (capital_loss_limit june30 capitalLossOnly r Hr))).
Defined.



(** X15: Credits and settlement: non-refundable credits bring the tax down to 0
    at most, so the final tax is never below minus the refundable credits;
    the credits reported are the two kinds together; and the result is
    flagged as a refund exactly when the payments cover the final tax. *)
Theorem credits_and_settlement (today : Date) (form : Form.t)
    (r : TaxResult.t) :
  calculateTotalTax today form = Some r ->
  TaxResult.finalTax r
    == Qmax 0 (TaxResult.totalTaxBeforeCredits r - nonRefundableCredits form)
       - refundableCredits form /\
  - refundableCredits form <= TaxResult.finalTax r /\
  TaxResult.totalCredits r
    == nonRefundableCredits form + refundableCredits form /\
  (TaxResult.isRefund r = true
   <-> TaxResult.finalTax r <= TaxResult.totalPayments r).
Proof.
  intros Hr. open_run Hr.
  split; [reflexivity |]. split.
  - match goal with |- context [Qmax 0 ?x] =>
      assert (0 <= Qmax 0 x) by apply Qmax_0_nonneg
    end. lra.
  - split.
    + unfold totalCredits, nonRefundableCredits, refundableCredits. lra.
    + match goal with |- (?x >=? 0) = true <-> _ =>
        destruct (Qgeb_spec x 0)
      end; split; intros; try discriminate; try reflexivity; lra.
Qed.

Lemma credits_and_settlement_witness :
  exists r,
    calculateTotalTax june30 saltItemizer = Some r /\
    - refundableCredits saltItemizer <= TaxResult.finalTax r.
Proof.
  destruct (calculateTotalTax_total june30 saltItemizer eq_refl) as [r Hr].
  exists r. split; [exact Hr |].
  exact (proj1 (proj2 (credits_and_settlement june30 saltItemizer r Hr))).
Defined.

(** X16: The toggle and the AGI: the two runs have the same total income; with
    the toggle off the adjustments hold none of the four new deductions;
    with it on the AGI is lower by exactly the four, so never higher when
    the tip, overtime and auto-loan amounts are not negative. *)
Theorem toggle_lowers_agi (today : Date) (form : Form.t)
    (on off : TaxResult.t) :
  calculateTotalTax today (withUseObbba2025 (Some true) form) = Some on ->
  calculateTotalTax today (withUseObbba2025 (Some false) form) = Some off ->
  let formOn := withUseObbba2025 (Some true) form in
  TaxResult.totalIncome on == TaxResult.totalIncome off /\
  TaxResult.agi off - TaxResult.agi on
    == tipsDeduction formOn + overtimeDeduction formOn
       + autoLoanDeduction formOn + seniorBonus today formOn /\
  (nonnegative form newDeductionFields ->
   TaxResult.agi on <= TaxResult.agi off).
Proof.
  intros Hon Hoff formOn.
  open_run Hon. open_run Hoff.
  rewrite !toggle_totalIncome.
  rewrite toggle_scheduleC, toggle_wagesForSET, toggle_filingStatus
    in Ese, Ese0.
  assert (Ese' : se0 = se) by congruence. subst se0.
  assert (Eoff := totalAdjustments_off today form (SE.deduction se)).
  split; [reflexivity |].
  assert (Eon : totalAdjustments today formOn (SE.deduction se)
                == otherAdjustments form (SE.deduction se)
                   + tipsDeduction formOn + overtimeDeduction formOn
                   + autoLoanDeduction formOn + seniorBonus today formOn).
  { unfold totalAdjustments, otherAdjustments, formOn.
    rewrite !toggle_field. reflexivity. }
  fold formOn. split; [lra |].
  intros Hnew.
  assert (H := totalAdjustments_on today form (SE.deduction se) Hnew).
  fold formOn in H. lra.
Qed.

Lemma toggle_lowers_agi_witness :
  exists on off,
    calculateTotalTax june30 (withUseObbba2025 (Some true) saltItemizer)
      = Some on /\
    calculateTotalTax june30 (withUseObbba2025 (Some false) saltItemizer)
      = Some off /\
    TaxResult.totalIncome on == TaxResult.totalIncome off.
Proof.
  destruct (calculateTotalTax_total june30
              (withUseObbba2025 (Some true) saltItemizer) eq_refl)
    as [on Hon].
  destruct (calculateTotalTax_total june30
              (withUseObbba2025 (Some false) saltItemizer) eq_refl)
    as [off Hoff].
  exists on, off. split; [exact Hon |]. split; [exact Hoff |].
  exact (proj1 (toggle_lowers_agi june30 saltItemizer on off Hon Hoff)).
Defined.

(* ------------------------------------------------------------------------- *)
(** ** The default of the toggle *)

Lemma toggle_phaseOutPct (b : option bool) (form : Form.t) :
  phaseOutPct (withUseObbba2025 b form) = phaseOutPct form.
Proof.
  unfold phaseOutPct, magiForPhaseOut, tentativeTotalIncome,
    tentativeAdjustments.
  rewrite toggle_totalIncome, toggle_filingStatus, !toggle_field.
  reflexivity.
Qed.

Lemma default_totalAdjustments (today : Date) (form : Form.t) (sed : Q) :
  Form.useObbba2025 form = None ->
  totalAdjustments today (withUseObbba2025 (Some true) form) sed
  = totalAdjustments today form sed.
Proof.
  intros H.
  unfold totalAdjustments, tipsDeduction, overtimeDeduction,
    autoLoanDeduction, seniorBonus.
  rewrite !toggle_field, !toggle_phaseOutPct.
  change (Form.birthDate (withUseObbba2025 (Some true) form))
    with (Form.birthDate form).
  change (useObbba2025 (withUseObbba2025 (Some true) form)) with true.
  replace (useObbba2025 form) with true
    by (unfold useObbba2025, getPolicyFlags; rewrite H; reflexivity).
  reflexivity.
Qed.

Lemma default_itemizedTotal (form : Form.t) (agi : Q) :
  Form.useObbba2025 form = None ->
  itemizedTotal (withUseObbba2025 (Some true) form) agi
  = itemizedTotal form agi.
Proof.
  intros H.
  unfold itemizedTotal, medicalDeductible, actualSalt, saltCap, getSaltCap.
  rewrite !toggle_field, !toggle_filingStatus.
  change (getPolicyFlags (withUseObbba2025 (Some true) form)) with true.
  replace (getPolicyFlags form) with true
    by (unfold getPolicyFlags; rewrite H; reflexivity).
  reflexivity.
Qed.

(** X17: A form that does not say [useObbba2025] is computed with the toggle on:
    its Tax Result is that of the same form with [useObbba2025: true]. *)
Theorem toggle_defaults_to_on (today : Date) (form : Form.t) :
  Form.useObbba2025 form = None ->
  calculateTotalTax today form
  = calculateTotalTax today (withUseObbba2025 (Some true) form).
Proof.
  intros H.
  cbv delta [calculateTotalTax]. cbv beta.
  change (filingStatus (withUseObbba2025 (Some true) form))
    with (filingStatus form).
  change (totalIncome (withUseObbba2025 (Some true) form))
    with (totalIncome form).
  change (wagesForSET (withUseObbba2025 (Some true) form))
    with (wagesForSET form).
  change (scheduleC (withUseObbba2025 (Some true) form))
    with (scheduleC form).
  do 3 let_step. bind_step. let_step.
  rewrite (default_totalAdjustments today form _ H). do 2 let_step.
  bind_step.
  rewrite (default_itemizedTotal form _ H). let_step.
  change (itemizes (withUseObbba2025 (Some true) form)) with (itemizes form).
  let_step.
  change (qbiDeduction (withUseObbba2025 (Some true) form))
    with (qbiDeduction form).
  do 2 let_step.
  change (totalQualifiedIncome (withUseObbba2025 (Some true) form))
    with (totalQualifiedIncome form).
  do 2 let_step. bind_step. let_step. bind_step.
  cbv beta iota. let_step.
  change (investmentIncome (withUseObbba2025 (Some true) form))
    with (investmentIncome form).
  bind_step. reflexivity.
Qed.

Lemma toggle_defaults_to_on_witness :
  calculateTotalTax june30 capitalLossOnly
  = calculateTotalTax june30 (withUseObbba2025 (Some true) capitalLossOnly).
Proof.
  exact (toggle_defaults_to_on june30 capitalLossOnly eq_refl).
Defined.

(* ------------------------------------------------------------------------- *)
(** ** Age and the senior bonus *)



(* ------------------------------------------------------------------------- *)
(** ** The phase-out has no cliff *)

(** X20: The phase-out factor never rises with income, and between two incomes
    it falls by at most their difference divided by 250000, the width of
    the phase-out range of every filing status. *)
Theorem getPhaseOutPct_no_cliff (s : string) (a b : Q) :
  a <= b ->
  getPhaseOutPct s b <= getPhaseOutPct s a /\
  getPhaseOutPct s a - getPhaseOutPct s b <= (b - a) * (1 # 250000).
Proof.
  intros Hab.
  destruct (getPhaseOutPct_spec s a) as [Ra [La [Ha Ma]]].
  destruct (getPhaseOutPct_spec s b) as [Rb [Lb [Hb Mb]]].
  cbv zeta in *.
  destruct (phaseOutLimits_cases s) as [E | E]; rewrite E in *;
    simpl fst in *; simpl snd in *.
  - assert (Da : (550000 - a) / (550000 - 300000)
                 == (550000 - a) * (1 # 250000))
      by (unfold Qdiv; apply Qmult_comp; reflexivity).
    assert (Db : (550000 - b) / (550000 - 300000)
                 == (550000 - b) * (1 # 250000))
      by (unfold Qdiv; apply Qmult_comp; reflexivity).
    destruct (Qlt_le_dec 300000 a); destruct (Qlt_le_dec a 550000);
      destruct (Qlt_le_dec 300000 b); destruct (Qlt_le_dec b 550000);
      try lra;
      try (specialize (La ltac:(lra))); try (specialize (Ha ltac:(lra)));
      try (specialize (Ma ltac:(lra))); try (specialize (Lb ltac:(lra)));
      try (specialize (Hb ltac:(lra))); try (specialize (Mb ltac:(lra)));
      split; lra.
  - assert (Da : (400000 - a) / (400000 - 150000)
                 == (400000 - a) * (1 # 250000))
      by (unfold Qdiv; apply Qmult_comp; reflexivity).
    assert (Db : (400000 - b) / (400000 - 150000)
                 == (400000 - b) * (1 # 250000))
      by (unfold Qdiv; apply Qmult_comp; reflexivity).
    destruct (Qlt_le_dec 150000 a); destruct (Qlt_le_dec a 400000);
      destruct (Qlt_le_dec 150000 b); destruct (Qlt_le_dec b 400000);
      try lra;
      try (specialize (La ltac:(lra))); try (specialize (Ha ltac:(lra)));
      try (specialize (Ma ltac:(lra))); try (specialize (Lb ltac:(lra)));
      try (specialize (Hb ltac:(lra))); try (specialize (Mb ltac:(lra)));
      split; lra.
Qed.

Lemma getPhaseOutPct_no_cliff_witness :
  150000 <= 275000 /\
  getPhaseOutPct "single" 275000 <= getPhaseOutPct "single" 150000.
Proof.
  assert (H : 150000 <= 275000) by (unfold Qle; simpl; lia).
  split; [exact H |].
  exact (proj1 (getPhaseOutPct_no_cliff "single" 150000 275000 H)).
Defined.

(* ------------------------------------------------------------------------- *)
(** ** Rates of the income tax in the pipeline *)

(** Whatever schedule the pipeline finds for a filing status, it is a valid
    one running from 10% to 37%. *)
Lemma brackets_lookup_valid (s : string) (brackets : Schedule) :
  orFallback (getProperty TAX_BRACKETS_2025 s) TAX_BRACKETS_2025_single
    = Some brackets ->
  validSchedule brackets /\ firstRate brackets == 0.10 /\
  maxRate brackets == 0.37.
Proof.
  unfold getProperty, TAX_BRACKETS_2025, TAX_BRACKETS_2025_single.
  simpl ownProperty.
  repeat match goal with
         | |- context [String.eqb s ?k] => destruct (String.eqb s k)
         end;
    simpl orFallback;
    try (destruct (inherited s); simpl orFallback; [discriminate |]);
    intros [= <-];
    (split; [| split; vm_compute; reflexivity]);
    unfold validSchedule; simpl;
    repeat split; try reflexivity; unfold Qle; simpl; lia.
Qed.

(** Whatever capital-gains schedule [calculateCapitalGainsTax] finds, it is
    the schedule of one of the five filing statuses. *)
Lemma calculateCapitalGainsTax_some_status (o g : Q) (s : string) (t : Q) :
  calculateCapitalGainsTax o g s = Some t ->
  exists status, calculateCapitalGainsTax o g (key status) = Some t.
Proof.
  unfold calculateCapitalGainsTax.
  destruct (g <=? 0).
  - intros H. exists single. exact H.
  - unfold getProperty at 1. simpl ownProperty.
    destruct (String.eqb_spec s "single") as [-> | _];
      [intros H; exists single; exact H |].
    destruct (String.eqb_spec s "married") as [-> | _];
      [intros H; exists married; exact H |].
    destruct (String.eqb_spec s "marriedSeparate") as [-> | _];
      [intros H; exists marriedSeparate; exact H |].
    destruct (String.eqb_spec s "head") as [-> | _];
      [intros H; exists head; exact H |].
    destruct (String.eqb_spec s "widow") as [-> | _];
      [intros H; exists widow; exact H |].
    destruct (inherited s); simpl orFallback; [discriminate |].
    intros H. exists single. exact H.
Qed.

(** X21: In every Tax Result of a form with no negative qualified dividends, the
    regular tax is at least 10% of the taxable income less the qualified
    income and at most 37% of the taxable income, and the capital gains tax
    is at most 20% of the qualified income (qualified dividends plus net
    long-term gain). *)
Theorem income_tax_rates (today : Date) (form : Form.t) (r : TaxResult.t) :
  calculateTotalTax today form = Some r ->
  0 <= qualifiedDividends form ->
  0.10 * (TaxResult.taxableIncome r - totalQualifiedIncome form)
    <= TaxResult.regularTax r /\
  TaxResult.regularTax r <= 0.37 * TaxResult.taxableIncome r /\
  TaxResult.capitalGainsTax r <= 0.20 * totalQualifiedIncome form.
Proof.
  intros Hr Hqd. open_run Hr.
  destruct (brackets_lookup_valid _ _ Ebrackets) as [Hvalid [Hfirst Hmax]].
  assert (Hq : 0 <= totalQualifiedIncome form).
  { unfold totalQualifiedIncome.
    assert (0 <= Qmax 0 (netLongTerm form)) by apply Qmax_0_nonneg. lra. }
  match type of Ecg with
  | calculateCapitalGainsTax ?o _ _ = _ => set (ordinary := o) in *
  end.
  match goal with
  | |- context [Qmax 0 ?x - totalQualifiedIncome form] =>
      set (taxable := Qmax 0 x) in *
  end.
  assert (Ht : 0 <= taxable) by apply Qmax_0_nonneg.
  assert (Ho : 0 <= ordinary) by apply Qmax_0_nonneg.
  assert (Ho' : taxable - totalQualifiedIncome form <= ordinary)
    by apply Q.le_max_r.
  assert (Ho'' : ordinary <= taxable).
  { unfold ordinary.
    split_max 0 (taxable - totalQualifiedIncome form); lra. }
  assert (Hlo := calculateBracketTax_ge_firstRate brackets ordinary Hvalid
                   Ho).
  assert (Hhi := calculateBracketTax_le_maxRate brackets ordinary Hvalid Ho).
  assert (E1 : firstRate brackets * ordinary == 0.10 * ordinary)
    by (rewrite Hfirst; reflexivity).
  assert (E2 : maxRate brackets * ordinary == 0.37 * ordinary)
    by (rewrite Hmax; reflexivity).
  split; [lra |]. split; [lra |].
  destruct (calculateCapitalGainsTax_some_status _ _ _ _ Ecg)
    as [status Hstatus].
  destruct (Qlt_le_dec 0 (totalQualifiedIncome form)) as [Hpos | Hzero].
  - destruct (calculateCapitalGainsTax_le_top_rate status ordinary
                (totalQualifiedIncome form) Ho Hpos) as [t [Et Hcap]].
    rewrite Hstatus in Et. injection Et as <-. exact Hcap.
  - unfold calculateCapitalGainsTax in Hstatus.
    destruct (Qleb_spec (totalQualifiedIncome form) 0); [| lra].
    injection Hstatus as <-. lra.
Qed.

Lemma income_tax_rates_witness :
  exists r,
    calculateTotalTax june30 saltItemizer = Some r /\
    TaxResult.regularTax r <= 0.37 * TaxResult.taxableIncome r.
Proof.
  destruct (calculateTotalTax_total june30 saltItemizer eq_refl) as [r Hr].
  exists r. split; [exact Hr |].
  assert (H : 0 <= qualifiedDividends saltItemizer)
    by (vm_compute; discriminate).
  exact (proj1 (proj2 (income_tax_rates june30 saltItemizer r Hr H))).
Defined.

(* ------------------------------------------------------------------------- *)
(** ** The filing statuses compared *)

(** Unfolds the bracket loop on the schedules of the goal and splits on the
    position of the income. *)
Ltac by_bracket :=
  cbv beta iota delta [bracketLoop];
  repeat match goal with
         | |- context [if ?a >? ?b then _ else _] =>
             destruct (Qgtb_spec a b)
         end;
  lra.

Lemma bracketLoop_married_le_head (income : Q) :
  bracketLoop income
    [ (0, 0.10); (23850, 0.12); (96950, 0.22); (206700, 0.24);
      (394600, 0.32); (501050, 0.35); (751600, 0.37) ] 0
  <= bracketLoop income
       [ (0, 0.10); (17000, 0.12); (64850, 0.22); (103350, 0.24);
         (197300, 0.32); (250500, 0.35); (626350, 0.37) ] 0.
Proof. by_bracket. Qed.

Lemma bracketLoop_head_le_single (income : Q) :
  bracketLoop income
    [ (0, 0.10); (17000, 0.12); (64850, 0.22); (103350, 0.24);
      (197300, 0.32); (250500, 0.35); (626350, 0.37) ] 0
  <= bracketLoop income TAX_BRACKETS_2025_single 0.
Proof. unfold TAX_BRACKETS_2025_single. by_bracket. Qed.

Lemma bracketLoop_single_le_marriedSeparate (income : Q) :
  bracketLoop income TAX_BRACKETS_2025_single 0
  <= bracketLoop income
       [ (0, 0.10); (11925, 0.12); (48475, 0.22); (103350, 0.24);
         (197300, 0.32); (250525, 0.35); (375800, 0.37) ] 0.
Proof. unfold TAX_BRACKETS_2025_single. by_bracket. Qed.

Lemma calculateBracketTax_pointwise (income : Q) (a b : Schedule) :
  bracketLoop income a 0 <= bracketLoop income b 0 ->
  calculateBracketTax income a <= calculateBracketTax income b.
Proof.
  intros H. unfold calculateBracketTax.
  destruct (Qleb_spec income 0); [lra |].
  apply Q.max_le_compat_l. exact H.
Qed.

(** X22: On the same ordinary income, the regular tax of the filing statuses is
    ordered: married filing jointly (and qualifying widow, which has the
    same schedule) pays at most what head of household pays, head of
    household at most what single pays, and single at most what married
    filing separately pays. *)
Theorem regularTaxFor_status_order (ordinaryIncome : Q) :
  exists joint hoh alone separate,
    regularTaxFor married ordinaryIncome = Some joint /\
    regularTaxFor widow ordinaryIncome = Some joint /\
    regularTaxFor head ordinaryIncome = Some hoh /\
    regularTaxFor single ordinaryIncome = Some alone /\
    regularTaxFor marriedSeparate ordinaryIncome = Some separate /\
    joint <= hoh /\ hoh <= alone /\ alone <= separate.
Proof.
  do 4 eexists.
  split; [reflexivity |]. split; [reflexivity |]. split; [reflexivity |].
  split; [reflexivity |]. split; [reflexivity |].
  split; [| split]; apply calculateBracketTax_pointwise.
  - apply bracketLoop_married_le_head.
  - apply bracketLoop_head_le_single.
  - apply bracketLoop_single_le_marriedSeparate.
Qed.

(* ------------------------------------------------------------------------- *)
(** ** Graduated rates of the PTET optimizer *)

Lemma within_le (a b : Q) (bound : Bound) :
  a <= b -> within b bound = true -> within a bound = true.
Proof.
  intros Hab. destruct bound as [q |]; simpl; [| reflexivity].
  destruct (Qleb_spec b q); [| discriminate]. intros _.
  destruct (Qleb_spec a q); [reflexivity | lra].
Qed.

Lemma lastElement_cons (x y : RateBracket.t) (l : list RateBracket.t) :
  lastElement (x :: y :: l) = lastElement (y :: l).
Proof. reflexivity. Qed.

Lemma lastElement_some (x : RateBracket.t) (l : list RateBracket.t) :
  exists z, lastElement (x :: l) = Some z /\ In z (x :: l).
Proof.
  revert x. induction l as [| y l IH]; intros x.
  - exists x. split; [reflexivity | left; reflexivity].
  - destruct (IH y) as [z [Hz Hin]]. exists z.
    rewrite lastElement_cons. split; [exact Hz | right; exact Hin].
Qed.

(** The loop returns the rate of a bracket still to visit, or that of the
    last bracket of the table. *)
Lemma graduatedLoop_result (rates rest : list RateBracket.t) (income : Q)
    (last : RateBracket.t) :
  lastElement rates = Some last ->
  exists bracket,
    graduatedLoop rates rest income = Some (RateBracket.rate bracket) /\
    (In bracket rest \/ bracket = last).
Proof.
  intros Hlast. induction rest as [| x rest IH]; simpl.
  - rewrite Hlast. exists last. split; [reflexivity | right; reflexivity].
  - destruct (within income (RateBracket.max x)).
    + exists x. split; [reflexivity | left; left; reflexivity].
    + destruct IH as [bracket [H [Hin | ->]]].
      * exists bracket. split; [exact H | left; right; exact Hin].
      * exists last. split; [exact H | right; reflexivity].
Qed.

Lemma graduatedLoop_monotone (rates rest : list RateBracket.t) (a b : Q)
    (last : RateBracket.t) :
  lastElement rates = Some last ->
  StronglySorted (fun x y => RateBracket.rate x <= RateBracket.rate y) rest ->
  (forall x, In x rest -> RateBracket.rate x <= RateBracket.rate last) ->
  a <= b ->
  exists ra rb,
    graduatedLoop rates rest a = Some ra /\
    graduatedLoop rates rest b = Some rb /\ ra <= rb.
Proof.
  intros Hlast Hsorted Hle Hab.
  induction rest as [| x rest IH].
  - simpl. rewrite Hlast. exists (RateBracket.rate last), (RateBracket.rate last).
    split; [reflexivity |]. split; [reflexivity | lra].
  - apply StronglySorted_inv in Hsorted. destruct Hsorted as [Hrest Hx].
    destruct (within a (RateBracket.max x)) eqn:Ea.
    + destruct (graduatedLoop_result rates (x :: rest) b last Hlast)
        as [bracket [Hb Hin]].
      exists (RateBracket.rate x), (RateBracket.rate bracket).
      split; [simpl; rewrite Ea; reflexivity |]. split; [exact Hb |].
      destruct Hin as [[<- | Hin] | ->].
      * lra.
      * rewrite Forall_forall in Hx. apply Hx. exact Hin.
      * apply Hle. left. reflexivity.
    + assert (Eb : within b (RateBracket.max x) = false).
      { destruct (within b (RateBracket.max x)) eqn:Eb; [| reflexivity].
        rewrite (within_le a b _ Hab Eb) in Ea. discriminate. }
      simpl. rewrite Ea, Eb. apply IH; [exact Hrest |].
      intros y Hy. apply Hle. right. exact Hy.
Qed.

Lemma sorted_below_last (l : list RateBracket.t) (last : RateBracket.t) :
  StronglySorted (fun x y => RateBracket.rate x <= RateBracket.rate y) l ->
  lastElement l = Some last ->
  forall x, In x l -> RateBracket.rate x <= RateBracket.rate last.
Proof.
  induction l as [| y l IH]; intros Hsorted Hlast x Hin; [contradiction |].
  apply StronglySorted_inv in Hsorted. destruct Hsorted as [Hrest Hy].
  destruct l as [| z l].
  - injection Hlast as <-. destruct Hin as [<- | []]. lra.
  - rewrite lastElement_cons in Hlast.
    destruct Hin as [<- | Hin].
    + rewrite Forall_forall in Hy. apply Hy.
      destruct (lastElement_some z l) as [w [Hw Hin]].
      rewrite Hlast in Hw. injection Hw as <-. exact Hin.
    + apply IH; assumption.
Qed.

(** X23: [getPTETGraduatedRate] fails exactly on an empty table; on any other
    table it returns the rate of one of the table's brackets, whatever the
    income. *)
Theorem getPTETGraduatedRate_result (rates : list RateBracket.t)
    (income : Q) :
  (getPTETGraduatedRate rates income = None <-> rates = []) /\
  (forall r, getPTETGraduatedRate rates income = Some r ->
             exists bracket, In bracket rates /\ r = RateBracket.rate bracket).
Proof.
  unfold getPTETGraduatedRate. destruct rates as [| x l].
  - split; [split; reflexivity |]. intros r H. discriminate.
  - destruct (lastElement_some x l) as [last [Hlast Hin]].
    destruct (graduatedLoop_result (x :: l) (x :: l) income last Hlast)
      as [bracket [H Hb]].
    split.
    + split; [rewrite H; discriminate | discriminate].
    + intros r Hr. rewrite H in Hr. injection Hr as <-.
      exists bracket. split; [| reflexivity].
      destruct Hb as [Hb | ->]; assumption.
Qed.

(** X24: On a table whose rates do not decrease from one bracket to the next, the
    graduated rate does not decrease with the income. *)
Theorem getPTETGraduatedRate_monotone (rates : list RateBracket.t)
    (a b : Q) :
  rates <> [] -> nondecreasingRates rates -> a <= b ->
  exists ra rb,
    getPTETGraduatedRate rates a = Some ra /\
    getPTETGraduatedRate rates b = Some rb /\ ra <= rb.
Proof.
  intros Hne Hsorted Hab. unfold getPTETGraduatedRate.
  destruct rates as [| x l]; [congruence |].
  destruct (lastElement_some x l) as [last [Hlast _]].
  assert (Hstrong : StronglySorted
            (fun x y => RateBracket.rate x <= RateBracket.rate y) (x :: l)).
  { apply Sorted_StronglySorted; [| exact Hsorted].
    intros u v w Huv Hvw. lra. }
  apply (graduatedLoop_monotone (x :: l) (x :: l) a b last Hlast Hstrong);
    [| exact Hab].
  apply sorted_below_last; assumption.
Qed.

Lemma getPTETGraduatedRate_monotone_witness :
  exists ra rb,
    getPTETGraduatedRate NY_rates 2000000 = Some ra /\
    getPTETGraduatedRate NY_rates 2000001 = Some rb /\ ra <= rb.
Proof.
  assert (H1 : NY_rates <> []) by discriminate.
  assert (H2 : nondecreasingRates NY_rates).
  { unfold nondecreasingRates, NY_rates.
    repeat (constructor; simpl; try (unfold Qle; simpl; lia)). }
  assert (H3 : 2000000 <= 2000001) by (unfold Qle; simpl; lia).
  exact (getPTETGraduatedRate_monotone NY_rates 2000000 2000001 H1 H2 H3).
Defined.

Lemma graduatedLoop_find (rates rest : list RateBracket.t) (income : Q) :
  graduatedLoop rates rest income =
  match List.find (fun r => within income (RateBracket.max r)) rest with
  | Some bracket => Some (RateBracket.rate bracket)
  | None => let* last := lastElement rates in Some (RateBracket.rate last)
  end.
Proof.
  induction rest as [| x rest IH]; simpl; [reflexivity |].
  destruct (within income (RateBracket.max x)); [reflexivity | exact IH].
Qed.

(** X25: The rate [analyzePTETElection] picks for a graduated program, with
    [find] and a fallback to the last bracket, is the rate
    [getPTETGraduatedRate] returns, on every table and income, the empty
    table included. *)
Theorem electionRate_is_getPTETGraduatedRate (rates : list RateBracket.t)
    (income : Q) :
  electionRate rates income = getPTETGraduatedRate rates income.
Proof.
  unfold electionRate, electionBracket, getPTETGraduatedRate.
  rewrite graduatedLoop_find.
  destruct (List.find _ rates); reflexivity.
Qed.
